(** * SEO blog generator: a shallow embedding of [src/main.py]

    The development follows the source class by class:
    - [Py]: the fragment of the Python runtime the program relies on
      (string methods, list indexing, true division, [int], [round],
      stable [sorted], the regular expressions of the program);
    - [CPython]: the string hash and the set table of the interpreter;
    - [Binary64]: the floating-point arithmetic of the interpreter;
    - [AIContentGenerator]: the templater, parameterised by the
      interpreter's string hash;
    - [AdvancedSEOBlogPipeline]: keyword research, scoring, metadata,
      the markdown renderer and the aggregate report, with the pipeline
      object as an explicit state record.

    Modelling conventions.
    - Text is a list of characters of code below 256 ([str]), with the
      white space, the word characters and the case of Python on these
      codes.
    - The readability score and the averages of the report are computed
      in binary64 ([Binary64]). The keyword score and the SEO score are
      evaluated on exact rationals ([Q]; [int] truncates and [round] rounds
      half to even); [ScoringFacts] compares the keyword score with its
      binary64 evaluation.
    - [list(a_set)] lists the set in an order fixed by an arbitrary
      function [slot]; [CPython.list_of_set] gives the order of the
      interpreter for a hash secret.
    - An uncaught exception is a value [Raise e] of the [result] type. *)

From Stdlib Require Import String Ascii List ZArith QArith Qround Qpower Qabs.
From Stdlib Require Import Lia Lqa Bool.
From Stdlib Require Import Permutation Sorted Floats Uint63.
Import ListNotations.

Open Scope string_scope.
Open Scope list_scope.

(* ================================================================== *)
(** * The Python fragment *)
(* ================================================================== *)

Module Py.

(** Python text. String literals are read through the coercion. *)
Definition str : Type := list ascii.
Coercion list_ascii_of_string : string >-> list.

(** ** Exceptions *)

Inductive exn : Type :=
| IndexError
| ZeroDivisionError
| StopIteration.

Inductive result (A : Type) : Type :=
| Return (a : A)
| Raise (e : exn).
Arguments Return {A} a.
Arguments Raise {A} e.

Definition bind {A B : Type} (m : result A) (k : A -> result B) : result B :=
  match m with
  | Return a => k a
  | Raise e => Raise e
  end.

Notation "x <- m ;; k" := (bind m (fun x => k))
  (at level 61, m at next level, right associativity).

(** [for x in l: acc = body(acc, x)] where the body may raise. *)
Fixpoint for_each {A S : Type} (body : S -> A -> result S) (l : list A) (s : S)
  : result S :=
  match l with
  | [] => Return s
  | x :: r => s' <- body s x ;; for_each body r s'
  end.

(** ** Characters *)

Definition code (c : ascii) : N := N_of_ascii c.

Definition between (lo hi : N) (c : ascii) : bool :=
  ((lo <=? code c) && (code c <=? hi))%N.

(** The classes [a-z], [A-Z], [0-9] and [a-zA-Z] of the regular
    expressions. *)
Definition is_lower (c : ascii) : bool := between 97 122 c.
Definition is_upper (c : ascii) : bool := between 65 90 c.
Definition is_digit (c : ascii) : bool := between 48 57 c.
Definition is_alpha (c : ascii) : bool := is_lower c || is_upper c.

(** The upper-case and the lower-case letters above 127, without the
    multiplication and the division sign among them. *)
Definition is_latin_upper (c : ascii) : bool :=
  between 192 214 c || between 216 222 c.

Definition is_latin_lower (c : ascii) : bool :=
  between 223 246 c || between 248 255 c.

(** [c.isalnum()] above 127: the letters, the ordinal indicators, the
    micro sign, the superscript digits and the fractions. *)
Definition is_latin_alnum (c : ascii) : bool :=
  is_latin_upper c || is_latin_lower c ||
  (code c =? 170)%N || (code c =? 181)%N || (code c =? 186)%N ||
  between 178 179 c || (code c =? 185)%N || between 188 190 c.

(** [\w] of the [re] module on text. *)
Definition is_word (c : ascii) : bool :=
  is_alpha c || is_digit c || Ascii.eqb c "_" || is_latin_alnum c.

(** White space of [str.split()] and [str.strip()]: the ASCII white space,
    the separators 28 to 31, the next-line control and the no-break
    space. *)
Definition is_space (c : ascii) : bool :=
  between 9 13 c || between 28 32 c || (code c =? 133)%N || (code c =? 160)%N.

(** The characters [str.title()] takes for letters. *)
Definition is_cased (c : ascii) : bool :=
  is_alpha c || is_latin_upper c || is_latin_lower c ||
  (code c =? 170)%N || (code c =? 181)%N || (code c =? 186)%N.

Definition lower_char (c : ascii) : ascii :=
  if is_upper c || is_latin_upper c then ascii_of_N (code c + 32) else c.

(** The title case of a letter. That of the micro sign, of the sharp s and
    of the y with diaeresis lies above 255: the three are left as they
    are. *)
Definition upper_char (c : ascii) : ascii :=
  if is_lower c || between 224 246 c || between 248 254 c
  then ascii_of_N (code c - 32) else c.

Definition LF : ascii := "010".

(** ** String methods *)

(** [s.lower()] *)
Definition lower (s : str) : str := map lower_char s.

(** [s.title()]: a letter is upper-cased when the previous character is
    not a letter and lower-cased otherwise. *)
Fixpoint title_from (previous_is_cased : bool) (s : str) : str :=
  match s with
  | [] => []
  | c :: r =>
      (if is_cased c
       then (if previous_is_cased then lower_char c else upper_char c)
       else c) :: title_from (is_cased c) r
  end.

Definition title (s : str) : str := title_from false s.

(** [s.startswith(p)] *)
Fixpoint startswith (p s : str) : bool :=
  match p, s with
  | [], _ => true
  | _ :: _, [] => false
  | a :: p', b :: s' => Ascii.eqb a b && startswith p' s'
  end.

(** [s.endswith(p)] *)
Definition endswith (p s : str) : bool := startswith (rev p) (rev s).

(** [sub in s] *)
Fixpoint contains (sub s : str) : bool :=
  startswith sub s ||
  match s with
  | [] => false
  | _ :: r => contains sub r
  end.

(** [s.count(c)] for a one-character argument. *)
Fixpoint count (c : ascii) (s : str) : Z :=
  match s with
  | [] => 0
  | d :: r => (if Ascii.eqb d c then 1 else 0) + count c r
  end.

(** The maximal runs of characters that satisfy [f]. *)
Fixpoint runs (f : ascii -> bool) (s : str) : list str :=
  match s with
  | [] => []
  | c :: r =>
      if f c
      then match r with
           | [] => [[c]]
           | d :: _ =>
               if f d
               then match runs f r with
                    | w :: ws => (c :: w) :: ws
                    | [] => [[c]]
                    end
               else [c] :: runs f r
           end
      else runs f r
  end.

(** [s.split()]: the maximal runs of characters that are not white space. *)
Definition split (s : str) : list str :=
  runs (fun c => negb (is_space c)) s.

(** [s.split(sep)] for a one-character separator: empty pieces are kept. *)
Fixpoint split_on (sep : ascii) (s : str) : list str :=
  match s with
  | [] => [[]]
  | c :: r =>
      if Ascii.eqb c sep then [] :: split_on sep r
      else match split_on sep r with
           | l :: ls => (c :: l) :: ls
           | [] => [[c]]
           end
  end.

(** [sep.join(pieces)] *)
Fixpoint join (sep : str) (pieces : list str) : str :=
  match pieces with
  | [] => []
  | [p] => p
  | p :: ps => p ++ sep ++ join sep ps
  end.

(** [s.replace(old, new)] scans from the left and never revisits replaced
    text. The counter [skip] is the number of characters of the current
    occurrence of [old] still to be dropped. *)
Fixpoint replace_from (old new : str) (skip : nat) (s : str) : str :=
  match s with
  | [] => []
  | c :: r =>
      match skip with
      | S k => replace_from old new k r
      | O =>
          if startswith old s
          then new ++ replace_from old new (length old - 1) r
          else c :: replace_from old new 0 r
      end
  end.

Definition replace (old new s : str) : str :=
  match old with
  | [] => new ++ flat_map (fun c => c :: new) s
  | _ :: _ => replace_from old new 0 s
  end.

Fixpoint drop_while (f : ascii -> bool) (s : str) : str :=
  match s with
  | [] => []
  | c :: r => if f c then drop_while f r else s
  end.

Definition strip_with (f : ascii -> bool) (s : str) : str :=
  rev (drop_while f (rev (drop_while f s))).

(** [s.strip()] *)
Definition strip (s : str) : str := strip_with is_space s.

(** [s.strip(c)] for a one-character argument. *)
Definition strip_char (c : ascii) (s : str) : str :=
  strip_with (Ascii.eqb c) s.

(** ** Lists *)

(** [l[i]] with Python's negative indices. *)
Definition index {A : Type} (l : list A) (i : Z) : result A :=
  let n := Z.of_nat (length l) in
  let j := if (i <? 0)%Z then (i + n)%Z else i in
  if ((0 <=? j) && (j <? n))%Z
  then match nth_error l (Z.to_nat j) with
       | Some a => Return a
       | None => Raise IndexError
       end
  else Raise IndexError.

(** [l[:n]] for a non-negative [n]. *)
Definition slice_to {A : Type} (n : nat) (l : list A) : list A := firstn n l.

(** [len(l)] *)
Definition len {A : Type} (l : list A) : Z := Z.of_nat (length l).

(** [sum(1 for x in l if f x)] *)
Definition count_if {A : Type} (f : A -> bool) (l : list A) : Z :=
  len (filter f l).

Definition sum_Z (l : list Z) : Z := fold_left Z.add l 0%Z.

(** [sorted(l, key=...)] is stable. [before x y] says that [x] may stay in
    front of [y]; an element is inserted in front of the first element it
    may stay in front of, so equal keys keep their order. *)
Section Sorted.
Context {A : Type} (before : A -> A -> bool).

Fixpoint insert (x : A) (l : list A) : list A :=
  match l with
  | [] => [x]
  | y :: r => if before x y then x :: l else y :: insert x r
  end.

Fixpoint sorted (l : list A) : list A :=
  match l with
  | [] => []
  | x :: r => insert x (sorted r)
  end.
End Sorted.

(** ** Numbers *)

(** [a / b] on integers (true division). *)
Definition truediv (a b : Z) : result Q :=
  match b with
  | Z0 => Raise ZeroDivisionError
  | Zpos p => Return (a # p)
  | Zneg p => Return ((- a) # p)
  end.

(** [int(x)] truncates towards zero. *)
Definition int (x : Q) : Z := Z.quot (Qnum x) (Zpos (Qden x)).

(** [round(x, ndigits)]: to the nearest multiple of [10^-ndigits], a tie
    going to the even multiple. *)
Definition round_half_even (x : Q) : Z :=
  let f := Qfloor x in
  let d := (x - inject_Z f)%Q in
  match (d ?= 1 # 2)%Q with
  | Lt => f
  | Gt => (f + 1)%Z
  | Eq => if Z.even f then f else (f + 1)%Z
  end.

Definition round (x : Q) (ndigits : nat) : Q :=
  let p := (10 ^ Z.of_nat ndigits)%Z in
  Qred (inject_Z (round_half_even (x * inject_Z p)) / inject_Z p).

(** ** The regular expressions of the program *)

Module Re.

(** [re.findall(r'\b[a-zA-Z]{4,}\b', s)]. Inside a run of word characters
    there is no word boundary, so a match is a whole run, made of letters
    only and at least four characters long. *)
Definition findall_words4 (s : str) : list str :=
  filter (fun w => forallb is_alpha w && (4 <=? length w)%nat)
         (runs is_word s).

(** [re.sub(r'[^a-z0-9]+', '-', s)]: the hyphen is written at the last
    character of each run of other characters. *)
Definition is_slug_char (c : ascii) : bool := is_lower c || is_digit c.

Fixpoint sub_non_slug (s : str) : str :=
  match s with
  | [] => []
  | c :: r =>
      if is_slug_char c then c :: sub_non_slug r
      else match r with
           | [] => ["-"%char]
           | d :: _ =>
               if is_slug_char d then "-"%char :: sub_non_slug r
               else sub_non_slug r
           end
  end.

(** [re.sub('^' + marker + '(.+)$', open + r'\1' + close, s, flags=re.MULTILINE)]:
    [.] does not match a line feed, so the substitution works line by
    line, on the lines that start with [marker] and go on for at least one
    more character. *)
Definition sub_heading_line (marker open close line : str) : str :=
  if startswith marker line && (length marker <? length line)%nat
  then open ++ skipn (length marker) line ++ close
  else line.

Definition sub_heading (marker open close s : str) : str :=
  join [LF] (map (sub_heading_line marker open close) (split_on LF s)).

(** The end of the shortest [(.+?)] followed by the delimiter [d]: the
    least [j >= 1] such that the text from [j] on starts with [d], no line
    feed being crossed. The argument [j] counts the characters consumed. *)
Fixpoint find_close (d : str) (j : nat) (s : str) : option nat :=
  match s with
  | [] => None
  | c :: r =>
      if (1 <=? j)%nat && startswith d s then Some j
      else if Ascii.eqb c LF then None
      else find_close d (S j) r
  end.

(** [re.sub(d (.+?) d, open + r'\1' + close, s)] for a literal delimiter
    [d]: leftmost match first, shortest content, no overlap. [skip] is the
    number of characters of the current match still to be dropped. *)
Fixpoint sub_emphasis_from (d open close : str) (skip : nat) (s : str) : str :=
  match s with
  | [] => []
  | c :: r =>
      match skip with
      | S k => sub_emphasis_from d open close k r
      | O =>
          if startswith d s
          then let rest := skipn (length d) s in
               match find_close d 0 rest with
               | Some j =>
                   open ++ firstn j rest ++ close ++
                   sub_emphasis_from d open close
                     (length d + j + length d - 1) r
               | None => c :: sub_emphasis_from d open close 0 r
               end
          else c :: sub_emphasis_from d open close 0 r
      end
  end.

Definition sub_emphasis (d open close s : str) : str :=
  sub_emphasis_from d open close 0 s.

End Re.

End Py.

(* ================================================================== *)
(** * The interpreter's string hash and sets *)
(* ================================================================== *)

(** CPython (3.11 and later) hashes a string with SipHash-1-3 over its
    bytes, keyed by a secret [(k0, k1)] drawn when the process starts:
    from the operating system by default, from [PYTHONHASHSEED] when it is
    set. All values are 64-bit words, written as [Z] with the wrap-around
    explicit. *)
Module CPython.

Local Open Scope Z_scope.

Definition wrap64 (x : Z) : Z := Z.land x (Z.ones 64).

Definition rotl (x : Z) (b : Z) : Z :=
  wrap64 (Z.lor (Z.shiftl x b) (Z.shiftr x (64 - b))).

Definition add64 (a b : Z) : Z := wrap64 (a + b).

Record sip : Type := mkSip { v0 : Z; v1 : Z; v2 : Z; v3 : Z }.

(** [HALF_ROUND(a, b, c, d, s, t)] *)
Definition half_round (a b c d s t : Z) : Z * Z * Z * Z :=
  let a := add64 a b in
  let c := add64 c d in
  let b := Z.lxor (rotl b s) a in
  let d := Z.lxor (rotl d t) c in
  let a := rotl a 32 in
  (a, b, c, d).

(** [SINGLE_ROUND(v0, v1, v2, v3)] *)
Definition single_round (v : sip) : sip :=
  let '(a, b, c, d) := half_round (v0 v) (v1 v) (v2 v) (v3 v) 13 16 in
  let '(c, b, a, d) := half_round c b a d 17 21 in
  {| v0 := a; v1 := b; v2 := c; v3 := d |}.

(** A little-endian word from at most eight bytes. *)
Fixpoint le64 (bytes : list Z) : Z :=
  match bytes with
  | [] => 0
  | b :: r => Z.lor b (Z.shiftl (le64 r) 8)
  end.

Definition compress (v : sip) (m : Z) : sip :=
  let v := {| v0 := v0 v; v1 := v1 v; v2 := v2 v; v3 := Z.lxor (v3 v) m |} in
  let v := single_round v in
  {| v0 := Z.lxor (v0 v) m; v1 := v1 v; v2 := v2 v; v3 := v3 v |}.

(** The loop over whole 8-byte blocks, then the last block, which carries
    the length in its top byte. *)
Fixpoint absorb (total : Z) (v : sip) (bytes : list Z) : sip :=
  match bytes with
  | b0 :: b1 :: b2 :: b3 :: b4 :: b5 :: b6 :: b7 :: r =>
      absorb total (compress v (le64 [b0; b1; b2; b3; b4; b5; b6; b7])) r
  | _ =>
      compress v (Z.lor (wrap64 (Z.shiftl total 56)) (le64 bytes))
  end.

Definition siphash13 (k0 k1 : Z) (bytes : list Z) : Z :=
  let v := {| v0 := Z.lxor k0 0x736f6d6570736575;
              v1 := Z.lxor k1 0x646f72616e646f6d;
              v2 := Z.lxor k0 0x6c7967656e657261;
              v3 := Z.lxor k1 0x7465646279746573 |} in
  let v := absorb (Z.of_nat (length bytes)) v bytes in
  let v := {| v0 := v0 v; v1 := v1 v; v2 := Z.lxor (v2 v) 0xff; v3 := v3 v |} in
  let v := single_round (single_round (single_round v)) in
  Z.lxor (Z.lxor (v0 v) (v1 v)) (Z.lxor (v2 v) (v3 v)).

(** [hash(s)] for a string of one-byte characters: the empty string
    hashes to 0, the word is read as a signed number and -1 is avoided. *)
Definition str_hash (k0 k1 : Z) (s : Py.str) : Z :=
  match s with
  | [] => 0
  | _ :: _ =>
      let x := siphash13 k0 k1 (map (fun c => Z.of_N (N_of_ascii c)) s) in
      let x := if (2 ^ 63 <=? x) then x - 2 ^ 64 else x in
      if (x =? -1) then -2 else x
  end.

(** The secret for [PYTHONHASHSEED=seed], [seed > 0]: bytes drawn from a
    32-bit linear congruential generator; [seed = 0] switches the secret
    off. *)
Fixpoint lcg_urandom (x : Z) (size : nat) : list Z :=
  match size with
  | O => []
  | S n =>
      let x := Z.land (x * 214013 + 2531011) (Z.ones 32) in
      Z.land (Z.shiftr x 16) 255 :: lcg_urandom x n
  end.

Definition secret_of_seed (seed : Z) : Z * Z :=
  if (seed =? 0) then (0, 0)
  else let bytes := lcg_urandom seed 16 in
       (le64 (firstn 8 bytes), le64 (skipn 8 bytes)).

Definition str_hash_seeded (seed : Z) (s : Py.str) : Z :=
  let '(k0, k1) := secret_of_seed seed in str_hash k0 k1 s.

(** ** Sets of strings *)

(** The set object of CPython, as far as [s = set()], [s.add(x)] and
    [list(s)] go: an open-addressing table that is scanned from the hash
    of the key, nine neighbours at a time, and listed slot by slot. *)

(** The hash table of a set: each slot is free or holds a key with its
    hash. A table has [mask + 1] slots. *)
Definition table : Type := list (option (Py.str * Z)).

Definition LINEAR_PROBES : Z := 9.
Definition PERTURB_SHIFT : Z := 5.
Definition PySet_MINSIZE : Z := 8.

Definition entry (t : table) (i : Z) : option (Py.str * Z) :=
  nth (Z.to_nat i) t None.

Fixpoint store (t : table) (i : nat) (e : Py.str * Z) : table :=
  match t, i with
  | [], _ => []
  | _ :: r, O => Some e :: r
  | x :: r, S j => x :: store r j e
  end.

Inductive probe : Type :=
| Unused (i : Z)
| Active
| Taken.

(** The entry at [i] and the [n - 1] entries behind it. *)
Fixpoint look (t : table) (key : Py.str) (i : Z) (n : nat) : probe :=
  match n with
  | O => Taken
  | S n' =>
      match entry t i with
      | None => Unused i
      | Some (k, _) =>
          if list_eq_dec Ascii.ascii_dec k key then Active
          else look t key (i + 1) n'
      end
  end.

(** The probe sequence of [set_add_entry] and [set_insert_clean]. *)
Fixpoint find (fuel : nat) (t : table) (mask : Z) (key : Py.str)
         (perturb i : Z) : probe :=
  match fuel with
  | O => Taken
  | S fuel' =>
      let probes := if (i + LINEAR_PROBES <=? mask) then LINEAR_PROBES else 0 in
      match look t key i (S (Z.to_nat probes)) with
      | Taken =>
          let perturb := Z.shiftr perturb PERTURB_SHIFT in
          find fuel' t mask key perturb (Z.land (i * 5 + 1 + perturb) mask)
      | found => found
      end
  end.

Definition lookup (t : table) (key : Py.str) (hash : Z) : probe :=
  let mask := Z.of_nat (length t) - 1 in
  let perturb := hash mod 2 ^ 64 in
  find (length t + 64) t mask key perturb (Z.land perturb mask).

(** [set_insert_clean] *)
Definition insert_clean (t : table) (e : Py.str * Z) : table :=
  match lookup t (fst e) (snd e) with
  | Unused i => store t (Z.to_nat i) e
  | _ => t
  end.

(** The size of the new table: the least power of two above [minused],
    from 8 on. *)
Fixpoint new_size (fuel : nat) (newsize minused : Z) : Z :=
  match fuel with
  | O => newsize
  | S fuel' =>
      if newsize <=? minused then new_size fuel' (newsize * 2) minused
      else newsize
  end.

(** [set_table_resize]: the entries are inserted into the new table in
    the order of the old one. *)
Definition set_table_resize (t : table) (minused : Z) : table :=
  let newsize := new_size 64 PySet_MINSIZE minused in
  fold_left (fun nt e => match e with
                         | Some e => insert_clean nt e
                         | None => nt
                         end)
            t (repeat None (Z.to_nat newsize)).

(** [set_add_entry], on a table without deleted entries: the table and
    the number of its keys. *)
Definition set_add_entry (so : table * Z) (key : Py.str) (hash : Z) : table * Z :=
  let '(t, used) := so in
  match lookup t key hash with
  | Unused i =>
      let t := store t (Z.to_nat i) (key, hash) in
      let used := used + 1 in
      let mask := Z.of_nat (length t) - 1 in
      if used * 5 <? mask * 3 then (t, used)
      else (set_table_resize t (if 50000 <? used then used * 2 else used * 4), used)
  | _ => so
  end.

(** [list(s)] for the set made by [s = set()] and [s.add(x)] for the [x]
    of [added], one after the other. *)
Definition list_of_set (hash : Py.str -> Z) (added : list Py.str) : list Py.str :=
  let so := fold_left (fun so x => set_add_entry so x (hash x)) added
                      (repeat None (Z.to_nat PySet_MINSIZE), 0) in
  flat_map (fun e => match e with Some (k, _) => [k] | None => [] end) (fst so).

End CPython.

Import Py.

(* ================================================================== *)
(** * Binary64 *)
(* ================================================================== *)

(** The arithmetic of the interpreter on [float]: IEEE 754 binary64
    numbers, every operation rounded to nearest, on the primitive floats
    of Rocq. *)
Module Binary64.

(** [float(z)] for [0 <= z < 2^53]. *)
Definition of_Z (z : Z) : float := PrimFloat.of_uint63 (Uint63.of_Z z).

(** The rational a finite number stands for. *)
Definition to_Q (x : float) : Q :=
  match Prim2SF x with
  | S754_finite s m e =>
      ((if s then -1 else 1) * inject_Z (Z.pos m) * Qpower 2 e)%Q
  | _ => 0%Q
  end.

(** [round(x, ndigits)] for [x >= 0]: the decimal nearest to the exact
    value of [x], a tie going to the even one, then the binary64 number
    nearest to that decimal. *)
Definition round (x : float) (ndigits : nat) : float :=
  let p := (10 ^ Z.of_nat ndigits)%Z in
  (of_Z (Py.round_half_even (to_Q x * inject_Z p)) / of_Z p)%float.

(** The literals [0.4] and [0.3]. *)
Definition point_four : float := 0x1.999999999999ap-2%float.
Definition point_three : float := 0x1.3333333333333p-2%float.

Definition seo_score (volume_score difficulty_score relevance_score : Z) : float :=
  (of_Z volume_score * point_four +
   of_Z (100 - difficulty_score) * point_three +
   of_Z relevance_score * point_three)%float.

(** The literals [206.835], [1.015] and [84.6]. *)
Definition c_206_835 : float := 0x1.9dab851eb851fp+7%float.
Definition c_1_015 : float := 0x1.03d70a3d70a3dp+0%float.
Definition c_84_6 : float := 0x1.5266666666666p+6%float.

(** An integer of any size, as a number with the exponent 0. *)
Definition of_int (z : Z) : spec_float :=
  match z with
  | Z0 => S754_zero false
  | Zpos p => S754_finite false p 0
  | Zneg p => S754_finite true p 0
  end.

(** [a / b] on integers (true division): the binary64 number nearest to
    the quotient, whatever the size of the integers. *)
Definition quotient (a b : Z) : float :=
  SF2Prim (SFdiv prec emax (of_int a) (of_int b)).

Definition truediv (a b : Z) : result float :=
  if (b =? 0)%Z then Raise ZeroDivisionError else Return (quotient a b).

(** [x / n] for a float and an integer below [2^53]. *)
Definition fdiv (x : float) (n : Z) : result float :=
  if (n =? 0)%Z then Raise ZeroDivisionError else Return (x / of_Z n)%float.

(** [min(a, b)] and [max(a, b)]: the second argument when it is smaller
    (larger) than the first, the first otherwise. *)
Definition min (a b : float) : float := if (b <? a)%float then b else a.
Definition max (a b : float) : float := if (a <? b)%float then b else a.

(** [sum(l)]: the numbers are added from the left, starting from 0. *)
Definition sum (l : list float) : float := fold_left PrimFloat.add l 0%float.

End Binary64.

(* ================================================================== *)
(** * Data model *)
(* ================================================================== *)

(** A product dictionary, with the keys the scraper always sets. *)
Record Product : Type := mkProduct {
  p_id : str;
  p_title : str;
  p_price : str;
  p_rating : str;
  p_reviews : str;
  p_category : str;
  p_description : str;
  p_url : str;
  p_trend_score : Z
}.

(** An analysed keyword, as built by [_analyze_keywords]. *)
Record Keyword : Type := mkKeyword {
  kw_keyword : str;
  kw_volume : Z;
  kw_difficulty : Z;
  kw_relevance : Z;
  kw_seo_score : Q;
  kw_word_count : Z
}.

Record BlogPost : Type := mkBlogPost {
  bp_id : str;
  bp_product_id : str;
  bp_product_name : str;
  bp_content : str;
  bp_keywords : list str;
  bp_word_count : Z;
  bp_seo_score : Z;
  bp_readability_score : float;
  bp_generated_at : str;
  bp_meta_description : str;
  bp_slug : str
}.

Record Metrics : Type := mkMetrics {
  products_processed : Z;
  keywords_researched : Z;
  blogs_generated : Z;
  total_words : Z
}.

(** The pipeline object. [keywords_database] is a dictionary read in
    insertion order, hence an association list. *)
Record Pipeline : Type := mkPipeline {
  products : list Product;
  keywords_database : list (str * list Keyword);
  blog_posts : list BlogPost;
  performance_metrics : Metrics
}.

(** The en dash of the first introduction template, one character. *)
Definition EN_DASH : ascii := "150".

(* ================================================================== *)
(** * class AIContentGenerator *)
(* ================================================================== *)

Module AIContentGenerator.
Section Generator.

(** The built-in [hash] of the running interpreter on strings. *)
Variable hash : str -> Z.

Definition _generate_headline (product_name main_keyword : str) : result str :=
  let templates : list str :=
    [ "# " ++ title main_keyword ++ ": Why " ++ product_name ++ " is Taking Over";
      "# " ++ product_name ++ " Review: The Ultimate " ++ title main_keyword;
      "# Discover the " ++ title main_keyword ++ " Everyone's Talking About" ] in
  index templates (hash product_name mod len templates).

Definition _generate_intro (product : Product) (keywords : list str) : result str :=
  k0 <- index keywords 0 ;;
  k1 <- index keywords 1 ;;
  let intro_templates : list str :=
    [ "In the world of " ++ lower (p_category product) ++
      ", finding the perfect " ++ k0 ++
      " can feel overwhelming. Enter the " ++ p_title product ++
      " " ++ [EN_DASH] ++ " a game-changer that's earned an impressive " ++
      p_rating product ++ "-star rating from over " ++ p_reviews product ++
      " satisfied customers.";
      "Looking for " ++ k0 ++ "? The " ++ p_title product ++
      " has quickly become the go-to choice for savvy shoppers. With " ++
      p_reviews product ++ " glowing reviews and a stellar " ++
      p_rating product ++ "-star rating, it's clear why this " ++ k1 ++
      " stands out.";
      "When it comes to " ++ k0 ++ ", the " ++ p_title product ++
      " sets a new standard. This top-rated " ++ lower (p_category product) ++
      " item has captured the attention of " ++ p_reviews product ++
      " buyers who've given it an outstanding " ++ p_rating product ++
      "-star rating." ] in
  index intro_templates (hash (p_title product) mod len intro_templates).

Definition _generate_body (product : Product) (keywords : list str) : result str :=
  k1 <- index keywords 1 ;;
  let feature : str :=
    "What makes this " ++ k1 ++ " special? " ++ p_description product ++ " " ++
    "At just " ++ p_price product ++
    ", it delivers exceptional value that's hard to match." in
  k2 <- index keywords 2 ;;
  k3 <- index keywords 3 ;;
  let benefit : str :=
    "Whether you're a first-time buyer or an experienced user looking for " ++
    k2 ++ ", " ++
    "this product consistently exceeds expectations. The combination of quality, " ++
    "performance, and affordability makes it the " ++ k3 ++
    " for anyone serious " ++
    "about their " ++ lower (p_category product) ++ " needs." in
  Return (join " " [feature; benefit]).

Definition _generate_cta (product_name keyword : str) : result str :=
  let ctas : list str :=
    [ "Ready to experience the difference? Discover why the " ++ product_name ++
      " is the " ++ keyword ++
      " of choice for thousands of satisfied customers. Check it out today!";
      "Don't miss out on this exceptional " ++ keyword ++
      ". Join the community of happy " ++ product_name ++
      " users and see what all the excitement is about!";
      "Transform your experience with the " ++ product_name ++
      ". As the leading " ++ keyword ++
      ", it's time to see why everyone's making the switch!" ] in
  index ctas (hash product_name mod len ctas).

Definition _generate_structured_content (product : Product) (keywords : list str)
  : result str :=
  let product_name := p_title product in
  k0 <- index keywords 0 ;;
  headline <- _generate_headline product_name k0 ;;
  intro <- _generate_intro product keywords ;;
  body <- _generate_body product keywords ;;
  k0' <- index keywords 0 ;;
  cta <- _generate_cta product_name k0' ;;
  Return (headline ++ [LF; LF] ++ intro ++ [LF; LF] ++ body ++ [LF; LF] ++ cta).

(** The prompt built by [_create_content_prompt] is not used. *)
Definition generate_blog_content (product : Product) (keywords : list str)
  : result str :=
  _generate_structured_content product keywords.

End Generator.
End AIContentGenerator.

(* ================================================================== *)
(** * class AdvancedSEOBlogPipeline *)
(* ================================================================== *)

Module AdvancedSEOBlogPipeline.

Definition str_eq_dec : forall a b : str, {a = b} + {a <> b} :=
  list_eq_dec ascii_dec.

Definition str_eqb (a b : str) : bool :=
  if str_eq_dec a b then true else false.

(** [__init__] *)
Definition init : Pipeline :=
  {| products := [];
     keywords_database := [];
     blog_posts := [];
     performance_metrics :=
       {| products_processed := 0;
          keywords_researched := 0;
          blogs_generated := 0;
          total_words := 0 |} |}.

Definition PROD001 : Product :=
  {| p_id := "PROD001";
     p_title := "Premium Noise Cancelling Wireless Headphones";
     p_price := "$129.99";
     p_rating := "4.7";
     p_reviews := "45,678";
     p_category := "Electronics";
     p_description :=
       "Immersive sound quality with 40-hour battery life and premium comfort";
     p_url := "https://example.com/headphones";
     p_trend_score := 95 |}.

Definition PROD002 : Product :=
  {| p_id := "PROD002";
     p_title := "Smart Watch Fitness Tracker with GPS";
     p_price := "$89.99";
     p_rating := "4.6";
     p_reviews := "32,456";
     p_category := "Wearable Tech";
     p_description :=
       "Track your health metrics with precision GPS and 7-day battery";
     p_url := "https://example.com/smartwatch";
     p_trend_score := 92 |}.

Definition PROD003 : Product :=
  {| p_id := "PROD003";
     p_title := "Portable Power Bank 20000mAh Fast Charging";
     p_price := "$39.99";
     p_rating := "4.8";
     p_reviews := "28,901";
     p_category := "Mobile Accessories";
     p_description :=
       "High-capacity power bank with USB-C fast charging technology";
     p_url := "https://example.com/powerbank";
     p_trend_score := 88 |}.

Definition PROD004 : Product :=
  {| p_id := "PROD004";
     p_title := "LED Desk Lamp with Wireless Charging Base";
     p_price := "$45.99";
     p_rating := "4.5";
     p_reviews := "19,234";
     p_category := "Home Office";
     p_description :=
       "Modern desk lamp with adjustable brightness and phone charging";
     p_url := "https://example.com/desklamp";
     p_trend_score := 85 |}.

(** The mock list of [scrape_trending_products]. *)
Definition trending_products : list Product :=
  [PROD001; PROD002; PROD003; PROD004].

(** [sorted(..., key=lambda x: x['trend_score'], reverse=True)] *)
Definition by_trend_score_desc (x y : Product) : bool :=
  (p_trend_score y <=? p_trend_score x)%Z.

Definition scrape_trending_products (self : Pipeline) : list Product * Pipeline :=
  let ps := sorted by_trend_score_desc trending_products in
  (ps,
   {| products := ps;
      keywords_database := keywords_database self;
      blog_posts := blog_posts self;
      performance_metrics :=
        {| products_processed := len ps;
           keywords_researched := keywords_researched (performance_metrics self);
           blogs_generated := blogs_generated (performance_metrics self);
           total_words := total_words (performance_metrics self) |} |}).

(** ** Keyword scoring *)

Definition _estimate_search_volume (keyword : str) : Z :=
  let base_score := 50%Z in
  let base_score :=
    if contains "best" keyword || contains "top" keyword
    then (base_score + 20)%Z else base_score in
  let base_score :=
    if contains "2025" keyword || contains "new" keyword
    then (base_score + 15)%Z else base_score in
  let base_score :=
    if (len (split keyword) =? 2)%Z
    then (base_score + 10)%Z else base_score in
  Z.min base_score 100.

Definition _estimate_difficulty (keyword : str) : Z :=
  let base_difficulty := 40%Z in
  let word_count := len (split keyword) in
  let base_difficulty :=
    if (word_count =? 1)%Z then (base_difficulty + 30)%Z
    else if (word_count =? 2)%Z then (base_difficulty + 10)%Z
    else base_difficulty in
  Z.min base_difficulty 100.

Definition _calculate_relevance (keyword : str) (word_count : Z) : Z :=
  let relevance := 70%Z in
  let relevance :=
    if (3 <=? word_count)%Z then (relevance + 20)%Z else relevance in
  Z.min relevance 100.

(** The weighted sum before rounding; 0.4 and 0.3 are read as 4/10 and
    3/10. *)
Definition combined (volume_score difficulty_score relevance_score : Z) : Q :=
  (inject_Z volume_score * (4 # 10) +
   inject_Z (100 - difficulty_score) * (3 # 10) +
   inject_Z relevance_score * (3 # 10))%Q.

Definition analyze_one (kw : str) : Keyword :=
  let word_count := len (split kw) in
  let volume_score := _estimate_search_volume kw in
  let difficulty_score := _estimate_difficulty kw in
  let relevance_score := _calculate_relevance kw word_count in
  let seo_score := combined volume_score difficulty_score relevance_score in
  {| kw_keyword := kw;
     kw_volume := (volume_score * 100)%Z;
     kw_difficulty := difficulty_score;
     kw_relevance := relevance_score;
     kw_seo_score := round seo_score 2;
     kw_word_count := word_count |}.

Definition _analyze_keywords (keywords : list str) : list Keyword :=
  map analyze_one keywords.

(** ** Keyword variations *)

(** The [modifiers] dictionary, in the order it is written. *)
Definition modifiers : list (str * list str) :=
  [ ("informational" : str, ["best" : str; "top" : str; "guide" : str;
                             "review" : str; "comparison" : str]);
    ("commercial" : str, ["buy" : str; "affordable" : str; "cheap" : str;
                          "deals" : str; "discount" : str]);
    ("transactional" : str, ["price" : str; "sale" : str; "order" : str;
                             "shop" : str]);
    ("temporal" : str, ["2025" : str; "new" : str; "latest" : str;
                        "trending" : str]) ].

(** What one round of the loop over [core_terms] adds to the set, in the
    order of the [add] calls. *)
Definition additions_for (category term : str) : list str :=
  [term] ++
  flat_map (fun im : str * list str =>
              flat_map (fun modifier : str =>
                          [modifier ++ " " ++ term; term ++ " " ++ modifier])
                       (slice_to 2 (snd im)))
           modifiers ++
  [term ++ " " ++ lower category].

Definition core_terms_of (base_terms : list str) : list str :=
  slice_to 3 (filter (fun t => (4 <? len t)%Z) base_terms).

(** Every [variations.add(...)], in program order. The two long-tail
    entries read [core_terms[0]] and [core_terms[1]] under the guard
    [len(core_terms) >= 2]. *)
Definition additions (base_terms : list str) (category : str) : list str :=
  let core_terms := core_terms_of base_terms in
  flat_map (additions_for category) core_terms ++
  match core_terms with
  | c0 :: c1 :: _ => [c0 ++ " " ++ c1; "best " ++ c0 ++ " " ++ c1]
  | _ => []
  end.

Section SetOrder.

(** [list(variations)] lists a set in the order of its hash table, which
    the program does not control: the elements are listed by increasing
    [slot], an arbitrary function that stands for the table layout. *)
Variable slot : str -> Z.

Definition by_slot (x y : str) : bool := (slot x <=? slot y)%Z.

Definition list_of_set (added : list str) : list str :=
  sorted by_slot (nodup str_eq_dec added).

Definition _generate_keyword_variations (base_terms : list str) (category : str)
  : list str :=
  list_of_set (additions base_terms category).

(** [sorted(..., key=lambda x: x['seo_score'], reverse=True)] *)
Definition by_seo_score_desc (x y : Keyword) : bool :=
  Qle_bool (kw_seo_score y) (kw_seo_score x).

Definition select_top (analyzed_keywords : list Keyword) : list Keyword :=
  slice_to 4 (sorted by_seo_score_desc analyzed_keywords).

Definition research_seo_keywords (self : Pipeline) (product : Product)
  : list Keyword * Pipeline :=
  let title_words := Re.findall_words4 (lower (p_title product)) in
  let keywords := _generate_keyword_variations title_words (p_category product) in
  let analyzed_keywords := _analyze_keywords keywords in
  let top_keywords := select_top analyzed_keywords in
  (top_keywords,
   {| products := products self;
      keywords_database :=
        (* self.keywords_database[product['id']] = top_keywords *)
        if existsb (fun e => str_eqb (fst e) (p_id product)) (keywords_database self)
        then map (fun e => if str_eqb (fst e) (p_id product)
                           then (fst e, top_keywords) else e)
                 (keywords_database self)
        else keywords_database self ++ [(p_id product, top_keywords)];
      blog_posts := blog_posts self;
      performance_metrics :=
        {| products_processed := products_processed (performance_metrics self);
           keywords_researched :=
             (keywords_researched (performance_metrics self) + len top_keywords)%Z;
           blogs_generated := blogs_generated (performance_metrics self);
           total_words := total_words (performance_metrics self) |} |}).

End SetOrder.

(** ** Post scoring *)

Definition cta_words : list str :=
  ["discover" : str; "check" : str; "buy" : str; "shop" : str; "get" : str;
   "try" : str; "order" : str].

Definition length_bonus (word_count : Z) : Q :=
  if ((150 <=? word_count) && (word_count <=? 200))%Z then 20
  else if ((140 <=? word_count) && (word_count <=? 210))%Z then 15
  else 0.

Definition heading_bonus (content : str) : Q :=
  if startswith "#" content then 20 else 0.

Definition has_cta (content_lower : str) : bool :=
  existsb (fun word => contains word content_lower) cta_words.

Definition cta_bonus (content_lower : str) : Q :=
  if has_cta content_lower then 20 else 0.

Definition keywords_found (content : str) (keywords : list str) : Z :=
  count_if (fun kw => contains (lower kw) (lower content)) keywords.

Definition _calculate_blog_seo_score (content : str) (keywords : list str)
  : result Z :=
  let score := 0%Q in
  let content_lower := lower content in
  let found := keywords_found content keywords in
  coverage <- truediv found (len keywords) ;;
  let score := (score + coverage * 40)%Q in
  let word_count := len (split content) in
  let score := (score + length_bonus word_count)%Q in
  let score := (score + heading_bonus content)%Q in
  let score := (score + cta_bonus content_lower)%Q in
  Return (Z.min (int score) 100).

Definition is_vowel (c : ascii) : bool :=
  existsb (Ascii.eqb c) ("aeiouy" : str).

(** The loop of [_count_syllables] over the characters of the word. *)
Fixpoint count_vowel_groups (previous_was_vowel : bool) (count : Z) (word : str)
  : Z :=
  match word with
  | [] => count
  | char :: r =>
      count_vowel_groups (is_vowel char)
        (if is_vowel char && negb previous_was_vowel then count + 1 else count)%Z
        r
  end.

Definition _count_syllables (word : str) : Z :=
  let word := lower word in
  let count := count_vowel_groups false 0 word in
  let count := if endswith "e" word then (count - 1)%Z else count in
  if (count =? 0)%Z then 1%Z else count.

Definition count_sentences (content : str) : Z :=
  (count "." content + count "!" content + count "?" content)%Z.

(** The score is computed in binary64. The integers 0 and 100 that [max]
    and [min] may return are read as the floats they are equal to. *)
Definition _calculate_readability (content : str) : result float :=
  let sentences := count_sentences content in
  let words := len (split content) in
  let syllables := sum_Z (map _count_syllables (split content)) in
  if ((sentences =? 0) || (words =? 0))%Z then Return 50%float
  else
    wps <- Binary64.truediv words sentences ;;
    spw <- Binary64.truediv syllables words ;;
    let score :=
      (Binary64.c_206_835 - Binary64.c_1_015 * wps - Binary64.c_84_6 * spw)%float in
    Return (Binary64.round (Binary64.max 0 (Binary64.min 100 score)) 1).

(** ** Metadata *)

(** The loop of [_generate_meta_description]; it stops at the first word
    that does not fit. *)
Fixpoint take_words (char_count : Z) (words : list str) : list str :=
  match words with
  | [] => []
  | word :: r =>
      if (char_count + len word + 1 <=? 155)%Z
      then word :: take_words (char_count + len word + 1) r
      else []
  end.

Definition _generate_meta_description (content : str) : str :=
  let text := strip (replace [LF] " " (replace "#" "" content)) in
  let words := split text in
  join " " (take_words 0 words) ++ "...".

Definition _generate_slug (title : str) : str :=
  let slug := lower title in
  let slug := Re.sub_non_slug slug in
  let slug := strip_char "-" slug in
  slice_to 60 slug.

(** ** Markdown renderer *)

Definition _markdown_to_html (markdown : str) : str :=
  let html := markdown in
  let html := Re.sub_heading "# " "<h1>" "</h1>" html in
  let html := Re.sub_heading "## " "<h2>" "</h2>" html in
  let html := Re.sub_emphasis "**" "<strong>" "</strong>" html in
  let html := Re.sub_emphasis "*" "<em>" "</em>" html in
  let html := replace [LF; LF] "</p><p>" html in
  let html := "<p>" ++ html ++ "</p>" in
  let html := replace "</h1></p>" "</h1>" (replace "<p><h1>" "<h1>" html) in
  let html := replace "</h2></p>" "</h2>" (replace "<p><h2>" "<h2>" html) in
  html.

(** ** Blog posts *)

Section Generation.

Variable hash : str -> Z.

(** [now] is the text of [datetime.now().isoformat()]. *)
Definition generate_blog_post (self : Pipeline) (now : str)
           (product : Product) (keywords : list Keyword)
  : result (BlogPost * Pipeline) :=
  let keyword_list := map kw_keyword keywords in
  blog_content <- AIContentGenerator.generate_blog_content hash product keyword_list ;;
  let word_count := len (split blog_content) in
  seo_score <- _calculate_blog_seo_score blog_content keyword_list ;;
  readability_score <- _calculate_readability blog_content ;;
  let blog_post :=
    {| bp_id := "BLOG_" ++ p_id product;
       bp_product_id := p_id product;
       bp_product_name := p_title product;
       bp_content := blog_content;
       bp_keywords := keyword_list;
       bp_word_count := word_count;
       bp_seo_score := seo_score;
       bp_readability_score := readability_score;
       bp_generated_at := now;
       bp_meta_description := _generate_meta_description blog_content;
       bp_slug := _generate_slug (p_title product) |} in
  Return
    (blog_post,
     {| products := products self;
        keywords_database := keywords_database self;
        blog_posts := blog_posts self ++ [blog_post];
        performance_metrics :=
          {| products_processed := products_processed (performance_metrics self);
             keywords_researched := keywords_researched (performance_metrics self);
             blogs_generated :=
               (blogs_generated (performance_metrics self) + 1)%Z;
             total_words :=
               (total_words (performance_metrics self) + word_count)%Z |} |}).

End Generation.

(** ** The aggregate report *)

(** [a // b] *)
Definition floordiv (a b : Z) : result Z :=
  if (b =? 0)%Z then Raise ZeroDivisionError else Return (a / b)%Z.

(** [next(p for p in products if p['id'] == product_id)] *)
Fixpoint next_product (ps : list Product) (product_id : str) : result Product :=
  match ps with
  | [] => Raise StopIteration
  | p :: r => if str_eqb (p_id p) product_id then Return p
              else next_product r product_id
  end.

(** The values the report text is made of, section by section; the layout
    of the text is not modelled. *)
Record Report : Type := mkReport {
  r_metrics : Metrics;
  r_average_words : Z;
  r_products : list Product;
  r_keywords : list (Product * list Keyword);
  r_posts : list BlogPost;
  r_avg_seo_score : float;
  r_avg_readability : float
}.

Definition generate_comprehensive_report (self : Pipeline) : result Report :=
  let m := performance_metrics self in
  average_words <- floordiv (total_words m) (Z.max (blogs_generated m) 1) ;;
  keyword_section <-
    for_each (fun acc (e : str * list Keyword) =>
                product <- next_product (products self) (fst e) ;;
                Return (acc ++ [(product, snd e)]))
             (keywords_database self) [] ;;
  avg_seo_score <-
    Binary64.truediv (sum_Z (map bp_seo_score (blog_posts self)))
                     (len (blog_posts self)) ;;
  avg_readability <-
    Binary64.fdiv (Binary64.sum (map bp_readability_score (blog_posts self)))
                  (len (blog_posts self)) ;;
  Return
    {| r_metrics := m;
       r_average_words := average_words;
       r_products := products self;
       r_keywords := keyword_section;
       r_posts := blog_posts self;
       r_avg_seo_score := avg_seo_score;
       r_avg_readability := avg_readability |}.

(** ** The driver *)

Section Main.

Variable hash : str -> Z.
Variable slot : str -> Z.
Variable now : str.

(** One round of the loop of [main], file exports left out. *)
Definition process_product (self : Pipeline) (product : Product)
  : result Pipeline :=
  let (keywords, self) := research_seo_keywords slot self product in
  r <- generate_blog_post hash self now product keywords ;;
  Return (snd r).

Definition main : result Report :=
  let (products, pipeline) := scrape_trending_products init in
  pipeline <- for_each process_product products pipeline ;;
  generate_comprehensive_report pipeline.

End Main.

End AdvancedSEOBlogPipeline.

Import AdvancedSEOBlogPipeline.

(* ================================================================== *)
(** * Vocabulary of the statements *)
(* ================================================================== *)

(** The element chosen by [templates[h % 3]]. *)
Definition pick3 {A : Type} (h : Z) (a b c : A) : A :=
  match (h mod 3)%Z with
  | 0%Z => a
  | 1%Z => b
  | _ => c
  end.

(** The character [x] does not occur in [s]. *)
Definition absent (x : ascii) (s : str) : bool :=
  forallb (fun c => negb (Ascii.eqb c x)) s.

(** Text without markdown markers, line feeds or tag openers. *)
Definition plain_char (c : ascii) : bool :=
  negb (Ascii.eqb c "#") && negb (Ascii.eqb c "*") &&
  negb (Ascii.eqb c "<") && negb (Ascii.eqb c LF).

Definition plain (s : str) : bool := forallb plain_char s.

Definition plain_product (p : Product) : bool :=
  plain (p_title p) && plain (p_price p) && plain (p_rating p) &&
  plain (p_reviews p) && plain (p_category p) && plain (p_description p).

(** No occurrence of [x] in [s] is followed by [w]. *)
Fixpoint never_followed (x : ascii) (w s : str) : bool :=
  match s with
  | [] => true
  | c :: r =>
      (if Ascii.eqb c x then negb (startswith w r) else true) &&
      never_followed x w r
  end.

(** [a] stands somewhere in front of [b] in [l]. *)
Definition precedes {A : Type} (a b : A) (l : list A) : Prop :=
  exists l1 l2 l3, l = l1 ++ a :: l2 ++ b :: l3.

(** The place of the first [x] in [l]. *)
Fixpoint position (x : str) (l : list str) : Z :=
  match l with
  | [] => 0%Z
  | y :: r => if str_eqb y x then 0%Z else (1 + position x r)%Z
  end.

(** [x] is added to the set before [y] is, by the [add] calls of
    [added]. *)
Definition added_before (x y : str) (added : list str) : bool :=
  existsb (str_eqb x) added && existsb (str_eqb y) added &&
  (position x added <? position y added)%Z.

(** The keywords of rank [score]. *)
Definition scored (score : Q) (l : list Keyword) : list Keyword :=
  filter (fun k => Qeq_bool (kw_seo_score k) score) l.

(** [x] may stay in front of [y] in a list sorted by [before]. *)
Definition in_order {A : Type} (before : A -> A -> bool) (x y : A) : Prop :=
  before x y = true.

(** [l1] is an initial segment of [l2]. *)
Definition prefix_of {A : Type} (l1 l2 : list A) : Prop :=
  exists r, l2 = l1 ++ r.

(** *** Readability, as the specification words it *)

(** White space, by its codes. *)
Definition white_space (c : ascii) : bool :=
  existsb (N.eqb (code c)) [9; 10; 11; 12; 13; 28; 29; 30; 31; 32; 133; 160]%N.

(** The number of runs of characters that satisfy [f], counted at their
    first characters; [inside] says that the text continues such a run. *)
Fixpoint run_starts (f : ascii -> bool) (inside : bool) (s : str) : Z :=
  match s with
  | [] => 0
  | c :: r => ((if f c && negb inside then 1 else 0) + run_starts f (f c) r)%Z
  end.

(** The number of tokens between white space. *)
Definition word_count (content : str) : Z :=
  run_starts (fun c => negb (white_space c)) false content.

Definition no_words (content : str) : bool := forallb white_space content.

(** The number of full stops, exclamation marks and question marks. *)
Definition terminal (c : ascii) : bool := existsb (Ascii.eqb c) (".!?" : str).

Definition sentence_count (content : str) : Z := len (filter terminal content).

Definition no_terminal_punctuation (content : str) : bool :=
  absent "." content && absent "!" content && absent "?" content.

(** The syllable estimate: the number of groups of vowels, one less for a
    word that ends in [e], and 1 at least. The letters count in either
    case. *)
Definition vowel (c : ascii) : bool :=
  existsb (Ascii.eqb c) ("aeiouyAEIOUY" : str).

Definition ends_in_e (word : str) : bool :=
  match rev word with
  | c :: _ => Ascii.eqb c "e" || Ascii.eqb c "E"
  | [] => false
  end.

Definition syllable_estimate (word : str) : Z :=
  Z.max 1 (len (runs vowel word) - (if ends_in_e word then 1 else 0)).

Definition syllable_count (content : str) : Z :=
  sum_Z (map syllable_estimate (split content)).

(** The reading ease, evaluated in binary64 from the left. *)
Definition flesch_reading_ease (words sentences syllables : Z) : float :=
  (Binary64.c_206_835
   - Binary64.c_1_015 * Binary64.quotient words sentences
   - Binary64.c_84_6 * Binary64.quotient syllables words)%float.

Definition clamp (lo hi x : float) : float :=
  Binary64.max lo (Binary64.min hi x).

(** Only lower-case letters, digits and hyphens. *)
Definition slug_text (s : str) : bool :=
  forallb (fun c => Re.is_slug_char c || Ascii.eqb c "-") s.

(** ** Inputs of the examples *)

Module Examples.

(** A product whose title has no word of more than four letters. *)
Definition lamp : Product :=
  {| p_id := "PROD005";
     p_title := "LED Lamp";
     p_price := "$9.99";
     p_rating := "4.1";
     p_reviews := "120";
     p_category := "Home Office";
     p_description := "Small lamp for a desk";
     p_url := "https://example.com/lamp";
     p_trend_score := 40 |}.

(** The first mock product with an asterisk in its description. *)
Definition starred : Product :=
  {| p_id := "PROD001";
     p_title := "Premium Noise Cancelling Wireless Headphones";
     p_price := "$129.99";
     p_rating := "4.7";
     p_reviews := "45,678";
     p_category := "Electronics";
     p_description := "Now with 2* longer battery life and premium comfort";
     p_url := "https://example.com/headphones";
     p_trend_score := 95 |}.

(** A product with a hash sign in its title. *)
Definition sharp : Product :=
  {| p_id := "PROD006";
     p_title := "Learning C# Programming Handbook";
     p_price := "$29.99";
     p_rating := "4.4";
     p_reviews := "980";
     p_category := "Books";
     p_description := "A practical introduction with exercises";
     p_url := "https://example.com/handbook";
     p_trend_score := 60 |}.

Definition four_keywords : list str :=
  ["best premium noise" : str; "best premium" : str; "premium best" : str;
   "top premium" : str].

(** Fifty-nine letters, a space and one more letter. *)
Definition long_title : str := repeat "a"%char 59 ++ " b".

(** The hash table lists the elements in the order they were added. *)
Definition insertion_slot : str -> Z := fun _ => 0%Z.

(** The hash table of the interpreter under [PYTHONHASHSEED=0] for the
    variations of the first mock product: an element is listed at its
    place in [CPython.list_of_set]. *)
Definition seed0_slot : str -> Z :=
  let order :=
    CPython.list_of_set (CPython.str_hash_seeded 0)
      (additions (Re.findall_words4 (lower (p_title PROD001)))
                 (p_category PROD001)) in
  fun x => position x order.

Definition noon : str := "2025-01-01T12:00:00".

Definition short_post : str := "# Discover best stuff".

Definition one_keyword : list str := ["best" : str].

Definition two_keywords : list str := ["best" : str; "zebra" : str].

Definition two_found : list str := ["best" : str; "stuff" : str].

Definition ten_keywords : list str :=
  ["best" : str; "stuff" : str; "alpha" : str; "bravo" : str; "delta" : str;
   "gamma" : str; "kappa" : str; "lambda" : str; "sigma" : str; "omega" : str].

End Examples.

(* ================================================================== *)
(** * Facts about the Python fragment *)
(* ================================================================== *)

Module PyFacts.

Lemma len_cons {A : Type} (a : A) (l : list A) :
  len (a :: l) = Z.pos (Pos.of_succ_nat (length l)).
Proof. reflexivity. Qed.

Lemma len_nonneg {A : Type} (l : list A) : (0 <= len l)%Z.
Proof. unfold len. lia. Qed.

(** Indexing in range returns the element, out of range it raises. *)
Lemma index_nth {A : Type} (l : list A) (n : nat) :
  index l (Z.of_nat n) =
  match nth_error l n with Some a => Return a | None => Raise IndexError end.
Proof.
  unfold index.
  destruct (Z.of_nat n <? 0)%Z eqn:E; [apply Z.ltb_lt in E; lia|].
  destruct (nth_error l n) eqn:En.
  - assert (n < length l)%nat by (apply nth_error_Some; congruence).
    replace ((0 <=? Z.of_nat n) && (Z.of_nat n <? Z.of_nat (length l)))%Z with true
      by (symmetry; apply andb_true_iff; split; [apply Z.leb_le | apply Z.ltb_lt]; lia).
    rewrite Nat2Z.id, En. reflexivity.
  - destruct ((0 <=? Z.of_nat n) && (Z.of_nat n <? Z.of_nat (length l)))%Z; [|reflexivity].
    rewrite Nat2Z.id, En. reflexivity.
Qed.

Lemma index_mod3 {A : Type} (a b c : A) (z : Z) :
  index [a; b; c] (z mod len [a; b; c]) = Return (pick3 z a b c).
Proof.
  change (len [a; b; c]) with 3%Z. unfold pick3.
  assert (H : (0 <= z mod 3 < 3)%Z) by (apply Z.mod_pos_bound; lia).
  destruct (z mod 3)%Z as [|p|p] eqn:E; try lia.
  - reflexivity.
  - assert (Hp : (p = 1 \/ p = 2)%positive) by lia.
    destruct Hp; subst p; reflexivity.
Qed.

Lemma pick3_cases {A : Type} (z : Z) (a b c : A) :
  pick3 z a b c = a \/ pick3 z a b c = b \/ pick3 z a b c = c.
Proof.
  unfold pick3. destruct (z mod 3)%Z as [|[ | |]|]; auto.
Qed.

Lemma pick3_congr {A : Type} (z z' : Z) (a b c : A) :
  (z mod 3 = z' mod 3)%Z -> pick3 z a b c = pick3 z' a b c.
Proof. unfold pick3. intros ->. reflexivity. Qed.

End PyFacts.

Import PyFacts.

(* ================================================================== *)
(** * The templater *)
(* ================================================================== *)

Module TemplaterFacts.
Import AIContentGenerator.

Section WithHash.
Variable hash : str -> Z.

Lemma headline_returns (name kw : str) :
  exists h, _generate_headline hash name kw = Return h.
Proof. unfold _generate_headline. rewrite index_mod3. eauto. Qed.

Lemma cta_returns (name kw : str) :
  exists c, _generate_cta hash name kw = Return c.
Proof. unfold _generate_cta. rewrite index_mod3. eauto. Qed.

(** With fewer than four keywords one of [keywords[0]] .. [keywords[3]]
    is out of range. *)
Lemma structured_content_short (product : Product) (keywords : list str) :
  (length keywords < 4)%nat ->
  _generate_structured_content hash product keywords = Raise IndexError.
Proof.
  intros H. unfold _generate_structured_content.
  destruct keywords as [|k0 [|k1 [|k2 [|k3 r]]]]; simpl in H; try lia.
  - reflexivity.
  - change (index [k0] 0) with (Return k0). cbn [bind].
    destruct (headline_returns (p_title product) k0) as [h ->]. reflexivity.
  - change (index [k0; k1] 0) with (Return k0). cbn [bind].
    destruct (headline_returns (p_title product) k0) as [h ->]. cbn [bind].
    unfold _generate_intro.
    change (index [k0; k1] 0) with (Return k0).
    change (index [k0; k1] 1) with (Return k1). cbn [bind].
    rewrite index_mod3. reflexivity.
  - change (index [k0; k1; k2] 0) with (Return k0). cbn [bind].
    destruct (headline_returns (p_title product) k0) as [h ->]. cbn [bind].
    unfold _generate_intro.
    change (index [k0; k1; k2] 0) with (Return k0).
    change (index [k0; k1; k2] 1) with (Return k1). cbn [bind].
    rewrite index_mod3. reflexivity.
Qed.

(** With four keywords or more the templater returns. *)
Lemma structured_content_returns (product : Product) (keywords : list str) :
  (4 <= length keywords)%nat ->
  exists content,
    _generate_structured_content hash product keywords = Return content.
Proof.
  intros H. unfold _generate_structured_content, _generate_intro, _generate_body.
  destruct keywords as [|k0 [|k1 [|k2 [|k3 r]]]]; simpl in H; try lia.
  set (ks := k0 :: k1 :: k2 :: k3 :: r).
  change (index ks 0) with (index ks (Z.of_nat 0)).
  change (index ks 1) with (index ks (Z.of_nat 1)).
  change (index ks 2) with (index ks (Z.of_nat 2)).
  change (index ks 3) with (index ks (Z.of_nat 3)).
  rewrite !index_nth. subst ks. cbn [nth_error bind].
  destruct (headline_returns (p_title product) k0) as [h ->]. cbn [bind].
  rewrite index_mod3. cbn [bind].
  destruct (cta_returns (p_title product) k0) as [c ->]. cbn [bind].
  eauto.
Qed.

End WithHash.

(** The hash enters the text only through its residue modulo 3 on the
    product title. *)
Lemma structured_content_residue (h1 h2 : str -> Z) (product : Product)
      (keywords : list str) :
  (h1 (p_title product) mod 3 = h2 (p_title product) mod 3)%Z ->
  _generate_structured_content h1 product keywords =
  _generate_structured_content h2 product keywords.
Proof.
  intros E.
  unfold _generate_structured_content, _generate_intro, _generate_headline,
    _generate_cta.
  destruct (index keywords 0) as [k0|]; [|reflexivity]. cbn [bind].
  rewrite !index_mod3.
  rewrite (pick3_congr _ _ _ _ _ E). cbn [bind].
  destruct (index keywords 1) as [k1|]; [|reflexivity]. cbn [bind].
  rewrite !index_mod3.
  rewrite (pick3_congr _ _ _ _ _ E). cbn [bind].
  destruct (_generate_body product keywords) as [body|]; [|reflexivity].
  cbn [bind]. rewrite (pick3_congr _ _ _ _ _ E). reflexivity.
Qed.

End TemplaterFacts.

(* ================================================================== *)
(** * Keyword scoring *)
(* ================================================================== *)

Module ScoringFacts.

Ltac split_ifs :=
  repeat match goal with
         | |- context [if ?b then _ else _] => destruct b
         end.

Lemma search_volume_range (keyword : str) :
  (50 <= _estimate_search_volume keyword <= 95)%Z.
Proof. unfold _estimate_search_volume. split_ifs; cbn; lia. Qed.

Lemma difficulty_range (keyword : str) :
  (40 <= _estimate_difficulty keyword <= 70)%Z.
Proof. unfold _estimate_difficulty. split_ifs; cbn; lia. Qed.

Lemma relevance_values (keyword : str) (word_count : Z) :
  _calculate_relevance keyword word_count = 70%Z \/
  _calculate_relevance keyword word_count = 90%Z.
Proof. unfold _calculate_relevance. split_ifs; cbn; auto. Qed.

(** On every triple of sub-scores the code can produce, the weighted sum
    is a whole number between 50 and 83, which rounding to two decimals
    leaves alone. *)
Lemma seo_score_of_keyword (kw : str) :
  (kw_seo_score (analyze_one kw) ==
   combined (_estimate_search_volume kw) (_estimate_difficulty kw)
            (_calculate_relevance kw (len (split kw))))%Q /\
  (50 <= kw_seo_score (analyze_one kw))%Q /\
  (kw_seo_score (analyze_one kw) <= 83)%Q.
Proof.
  unfold analyze_one, kw_seo_score, _estimate_search_volume,
    _estimate_difficulty, _calculate_relevance.
  split_ifs; vm_compute; repeat split; intros; discriminate.
Qed.

(** The binary64 evaluation, rounded to two decimals, is the number of the
    exact evaluation: the comparisons of the ranking are the same in
    both. *)
Lemma binary64_score_agrees (kw : str) :
  (Binary64.to_Q
     (Binary64.round
        (Binary64.seo_score (_estimate_search_volume kw) (_estimate_difficulty kw)
                            (_calculate_relevance kw (len (split kw)))) 2) ==
   kw_seo_score (analyze_one kw))%Q.
Proof.
  unfold analyze_one, kw_seo_score, _estimate_search_volume,
    _estimate_difficulty, _calculate_relevance.
  split_ifs; vm_compute; reflexivity.
Qed.

End ScoringFacts.

(* ================================================================== *)
(** * Post scoring *)
(* ================================================================== *)

Module PostScoreFacts.

Lemma count_if_nonneg {A : Type} (f : A -> bool) (l : list A) :
  (0 <= count_if f l)%Z.
Proof. unfold count_if. apply len_nonneg. Qed.

(** On non-negative numbers [int] is the floor. *)
Lemma int_floor (q : Q) : (0 <= q)%Q -> int q = Qfloor q.
Proof.
  destruct q as [n d]. unfold int, Qfloor, Qle. cbn. intros H.
  apply Z.quot_div_nonneg; lia.
Qed.

Lemma int_monotone (p q : Q) :
  (0 <= p)%Q -> (p <= q)%Q -> (0 <= int p <= int q)%Z.
Proof.
  intros Hp Hpq.
  assert (Hq : (0 <= q)%Q) by (eapply Qle_trans; eauto).
  rewrite !int_floor by assumption. split.
  - change 0%Z with (Qfloor 0). apply Qfloor_resp_le. exact Hp.
  - apply Qfloor_resp_le. exact Hpq.
Qed.

Lemma length_bonus_nonneg (n : Z) : (0 <= length_bonus n)%Q.
Proof.
  unfold length_bonus.
  destruct ((150 <=? n) && (n <=? 200))%Z; [discriminate|].
  destruct ((140 <=? n) && (n <=? 210))%Z; discriminate.
Qed.

Lemma heading_bonus_nonneg (content : str) : (0 <= heading_bonus content)%Q.
Proof. unfold heading_bonus. destruct (startswith "#" content); discriminate. Qed.

Lemma cta_bonus_nonneg (content : str) : (0 <= cta_bonus content)%Q.
Proof. unfold cta_bonus. destruct (has_cta content); discriminate. Qed.

Lemma fraction_monotone (a b : Z) (p : positive) :
  (0 <= a <= b)%Z -> (0 <= a # p)%Q /\ (a # p <= b # p)%Q.
Proof. intros H. unfold Qle. cbn. split; nia. Qed.

(** The score on a non-empty keyword list. *)
Lemma seo_score_nonempty (content : str) (k : str) (r : list str) :
  _calculate_blog_seo_score content (k :: r) =
  Return
    (Z.min
       (int (0 + (keywords_found content (k :: r) # Pos.of_succ_nat (length r)) * 40
             + length_bonus (len (split content))
             + heading_bonus content
             + cta_bonus (lower content))%Q)
       100).
Proof. reflexivity. Qed.

Lemma seo_score_empty (content : str) :
  _calculate_blog_seo_score content [] = Raise ZeroDivisionError.
Proof. reflexivity. Qed.

Lemma weighted_sum_monotone (x y b1 b2 b3 : Q) :
  (0 <= x)%Q -> (x <= y)%Q -> (0 <= b1)%Q -> (0 <= b2)%Q -> (0 <= b3)%Q ->
  (0 <= 0 + x * 40 + b1 + b2 + b3)%Q /\
  (0 + x * 40 + b1 + b2 + b3 <= 0 + y * 40 + b1 + b2 + b3)%Q.
Proof.
  intros Hx Hxy H1 H2 H3. split; lra.
Qed.

End PostScoreFacts.

(* ================================================================== *)
(** * Rounding and clamping *)
(* ================================================================== *)

Module NumFacts.

Lemma Qle_bool_total (a b : Q) : Qle_bool a b = false -> (b <= a)%Q.
Proof.
  intros H. apply Qlt_le_weak. apply Qnot_le_lt. intros Hab.
  apply Qle_bool_iff in Hab. congruence.
Qed.

(** Rounding to an integer stays between the integers around. *)
Lemma round_half_even_between (x : Q) (lo hi : Z) :
  (inject_Z lo <= x)%Q -> (x <= inject_Z hi)%Q ->
  (lo <= round_half_even x <= hi)%Z.
Proof.
  intros Hlo Hhi.
  assert (Hf : (lo <= Qfloor x)%Z).
  { rewrite <- (Qfloor_Z lo). apply Qfloor_resp_le. exact Hlo. }
  assert (Hfx : (inject_Z (Qfloor x) <= x)%Q) by apply Qfloor_le.
  unfold round_half_even.
  destruct (Qcompare_spec (x - inject_Z (Qfloor x)) (1 # 2)) as [E | L | G].
  - assert (Hh : (inject_Z (Qfloor x) + (1 # 2) <= inject_Z hi)%Q) by lra.
    assert (Qfloor x < hi)%Z.
    { unfold Qle in Hh. cbn in Hh. lia. }
    destruct (Z.even (Qfloor x)); lia.
  - assert (Hh : (inject_Z (Qfloor x) <= inject_Z hi)%Q) by lra.
    rewrite <- Zle_Qle in Hh. lia.
  - assert (Hh : (inject_Z (Qfloor x) + (1 # 2) <= inject_Z hi)%Q) by lra.
    assert (Qfloor x < hi)%Z.
    { unfold Qle in Hh. cbn in Hh. lia. }
    lia.
Qed.

(** ** Binary64 numbers *)

Lemma digits2_bound (m : positive) : (Z.pos m < 2 ^ Z.pos (digits2_pos m))%Z.
Proof.
  induction m as [p IH | p IH |]; cbn [digits2_pos].
  - rewrite Pos2Z.inj_succ, Z.pow_succ_r by lia. lia.
  - rewrite Pos2Z.inj_succ, Z.pow_succ_r by lia. lia.
  - reflexivity.
Qed.

(** The mantissa of a binary64 number has 53 bits at most. *)
Lemma mantissa_bound (x : float) (s : bool) (m : positive) (e : Z) :
  Prim2SF x = S754_finite s m e -> (Z.pos m < 2 ^ 53)%Z.
Proof.
  intros P. pose proof (Prim2SF_valid x) as V. rewrite P in V.
  cbn [SpecFloat.valid_binary] in V. unfold bounded, canonical_mantissa, fexp in V.
  apply andb_true_iff in V. destruct V as [V _]. apply Z.eqb_eq in V.
  assert (D : (Z.pos (digits2_pos m) <= 53)%Z) by (unfold prec in V; lia).
  pose proof (digits2_bound m) as B.
  assert (M : (2 ^ Z.pos (digits2_pos m) <= 2 ^ 53)%Z)
    by (apply Z.pow_le_mono_r; lia).
  lia.
Qed.

Lemma power_of_two_negative (p : positive) :
  Qpower 2 (Z.neg p) == / inject_Z (2 ^ Z.pos p).
Proof.
  change (Z.neg p) with (- Z.pos p)%Z. rewrite Qpower_opp.
  rewrite Zpower_Qpower by lia. reflexivity.
Qed.

(** A positive number with a negative exponent and its bound. *)
Lemma scaled_below (m : positive) (p : positive) (b : Z) :
  (Z.pos m < b * 2 ^ Z.pos p)%Z ->
  (0 < inject_Z (Z.pos m) * Qpower 2 (Z.neg p) /\
   inject_Z (Z.pos m) * Qpower 2 (Z.neg p) < inject_Z b)%Q.
Proof.
  intros H. rewrite power_of_two_negative.
  assert (P : (0 < 2 ^ Z.pos p)%Z) by (apply Z.pow_pos_nonneg; lia).
  assert (PQ : (0 < inject_Z (2 ^ Z.pos p))%Q)
    by (change 0%Q with (inject_Z 0); rewrite <- Zlt_Qlt; exact P).
  split.
  - apply Qmult_lt_0_compat; [reflexivity | apply Qinv_lt_0_compat; exact PQ].
  - apply Qlt_shift_div_r; [exact PQ|].
    rewrite <- inject_Z_mult, <- Zlt_Qlt. exact H.
Qed.

(** A positive number that the comparison puts below 100 has a value
    below 100. *)
Lemma below_100 (x : float) :
  (0 <? x)%float = true -> (x <? 100)%float = true ->
  (0 < Binary64.to_Q x /\ Binary64.to_Q x < 100)%Q.
Proof.
  rewrite !FloatAxioms.ltb_spec. unfold Binary64.to_Q.
  assert (P0 : Prim2SF 0 = S754_zero false) by (vm_compute; reflexivity).
  assert (P100 : Prim2SF 100 = S754_finite false 7036874417766400 (-46))
    by (vm_compute; reflexivity).
  rewrite P0, P100.
  destruct (Prim2SF x) as [s | s | | s m e] eqn:P; cbn [SFltb SFcompare];
    try discriminate.
  - destruct s; discriminate.
  - destruct s; [discriminate|]. intros _ L.
    pose proof (mantissa_bound x false m e P) as M.
    destruct (Z.compare e (-46)) eqn:C; try discriminate.
    + apply Z.compare_eq in C. subst e.
      rewrite Pos.compare_cont_spec in L.
      destruct (Pos.compare m 7036874417766400) eqn:C; try discriminate.
      rewrite Qmult_1_l. change 100%Q with (inject_Z 100).
      apply scaled_below.
      replace (100 * 2 ^ 46)%Z with 7036874417766400%Z by reflexivity.
      apply Pos2Z.pos_lt_pos. exact C.
    + rewrite Z.compare_lt_iff in C.
      destruct e as [|p|p]; try lia.
      rewrite Qmult_1_l. change 100%Q with (inject_Z 100).
      apply scaled_below.
      assert (T : (2 ^ 47 <= 2 ^ Z.pos p)%Z) by (apply Z.pow_le_mono_r; lia).
      replace (2 ^ 47)%Z with 140737488355328%Z in T by reflexivity.
      replace (2 ^ 53)%Z with 9007199254740992%Z in M by reflexivity.
      lia.
Qed.

(** The clamped score is a number between 0 and 100. *)
Lemma clamp_range (x : float) :
  (0 <= Binary64.to_Q (clamp 0 100 x) /\ Binary64.to_Q (clamp 0 100 x) <= 100)%Q.
Proof.
  unfold clamp, Binary64.max, Binary64.min.
  destruct (x <? 100)%float eqn:A.
  - destruct (0 <? x)%float eqn:B.
    + destruct (below_100 x B A) as [L U]. split; apply Qlt_le_weak; assumption.
    + vm_compute. split; discriminate.
  - change (0 <? 100)%float with true. cbv iota.
    vm_compute. split; discriminate.
Qed.

(** The binary64 numbers nearest to the tenths from 0 to 100 lie between
    0 and 100, within [10^-14] of the tenths. *)
Lemma tenths_table :
  forallb (fun t =>
             let r := Binary64.to_Q (Binary64.of_Z t / Binary64.of_Z 10) in
             Qle_bool 0 r && Qle_bool r 100 &&
             Qle_bool (Qabs (r - (t # 10))) (1 # 100000000000000))
          (map Z.of_nat (seq 0 1001)) = true.
Proof. vm_compute. reflexivity. Qed.

Lemma tenth_range (t : Z) :
  (0 <= t <= 1000)%Z ->
  let r := Binary64.to_Q (Binary64.of_Z t / Binary64.of_Z 10) in
  (0 <= r)%Q /\ (r <= 100)%Q /\ (Qabs (r - (t # 10)) <= 1 # 100000000000000)%Q.
Proof.
  intros H r. pose proof tenths_table as T.
  rewrite forallb_forall in T. specialize (T t).
  assert (I : In t (map Z.of_nat (seq 0 1001))).
  { apply in_map_iff. exists (Z.to_nat t). split; [lia|].
    apply in_seq. lia. }
  specialize (T I). cbv zeta in T. fold r in T.
  rewrite !andb_true_iff in T. destruct T as [[T1 T2] T3].
  rewrite !Qle_bool_iff in *. auto.
Qed.

(** [round(x, 1)] of a number between 0 and 100 is the binary64 number
    nearest to a tenth between 0 and 100. *)
Lemma round1_range (x : float) :
  (0 <= Binary64.to_Q x)%Q -> (Binary64.to_Q x <= 100)%Q ->
  exists tenths : Z,
    (0 <= tenths <= 1000)%Z /\
    Binary64.round x 1 = (Binary64.of_Z tenths / Binary64.of_Z 10)%float.
Proof.
  intros H0 H100. unfold Binary64.round.
  change (10 ^ Z.of_nat 1)%Z with 10%Z.
  exists (round_half_even (Binary64.to_Q x * inject_Z 10)). split; [|reflexivity].
  apply round_half_even_between.
  - change (inject_Z 0) with 0%Q. change (inject_Z 10) with 10%Q. lra.
  - change (inject_Z 1000) with 1000%Q. change (inject_Z 10) with 10%Q. lra.
Qed.

End NumFacts.

(* ================================================================== *)
(** * Readability *)
(* ================================================================== *)

Module ReadabilityFacts.
Import NumFacts.

(** ** Sentences *)

Lemma count_nonneg (c : ascii) (s : str) : (0 <= count c s)%Z.
Proof.
  induction s as [|d r IH]; cbn [count]; [lia|]. destruct (Ascii.eqb d c); lia.
Qed.

Lemma count_zero_absent (c : ascii) (s : str) :
  (count c s =? 0)%Z = absent c s.
Proof.
  induction s as [|d r IH]; [reflexivity|].
  unfold absent in *. cbn [count forallb].
  pose proof (count_nonneg c r) as Hr.
  destruct (Ascii.eqb d c); cbn [negb andb].
  - apply Z.eqb_neq. lia.
  - rewrite Z.add_0_l. exact IH.
Qed.

Lemma sentences_zero (content : str) :
  (count_sentences content =? 0)%Z = no_terminal_punctuation content.
Proof.
  unfold count_sentences, no_terminal_punctuation.
  rewrite <- !count_zero_absent.
  pose proof (count_nonneg "." content).
  pose proof (count_nonneg "!" content).
  pose proof (count_nonneg "?" content).
  destruct (count "." content =? 0)%Z eqn:E1;
    destruct (count "!" content =? 0)%Z eqn:E2;
    destruct (count "?" content =? 0)%Z eqn:E3; cbn;
    rewrite ?Z.eqb_eq, ?Z.eqb_neq in *; lia.
Qed.

Lemma terminal_cases (c : ascii) :
  ((if Ascii.eqb c "." then 1 else 0) + (if Ascii.eqb c "!" then 1 else 0) +
   (if Ascii.eqb c "?" then 1 else 0))%Z = if terminal c then 1%Z else 0%Z.
Proof. destruct c as [[] [] [] [] [] [] [] []]; reflexivity. Qed.

(** The three counts of the code add up to the number of terminal
    marks. *)
Lemma sentences_counted (content : str) :
  count_sentences content = sentence_count content.
Proof.
  unfold count_sentences, sentence_count, len.
  induction content as [|c r IH]; [reflexivity|].
  cbn [count filter]. pose proof (terminal_cases c) as T.
  destruct (terminal c); cbn [length]; rewrite ?Nat2Z.inj_succ; lia.
Qed.

(** ** Words *)

Lemma run_starts_nonneg (f : ascii -> bool) (s : str) :
  forall inside, (0 <= run_starts f inside s)%Z.
Proof.
  induction s as [|c r IH]; intros inside; cbn [run_starts]; [lia|].
  specialize (IH (f c)). destruct (f c && negb inside); lia.
Qed.

Lemma run_starts_ext (f g : ascii -> bool) (s : str) :
  (forall c, f c = g c) ->
  forall inside, run_starts f inside s = run_starts g inside s.
Proof.
  intros E. induction s as [|c r IH]; intros inside; cbn [run_starts];
    [reflexivity|].
  rewrite IH, E. reflexivity.
Qed.

Lemma run_starts_map (f : ascii -> bool) (g : ascii -> ascii) (s : str) :
  forall inside,
    run_starts f inside (map g s) = run_starts (fun c => f (g c)) inside s.
Proof.
  induction s as [|c r IH]; intros inside; cbn [map run_starts]; [reflexivity|].
  rewrite IH. reflexivity.
Qed.

(** Each run is counted once, at its first character. *)
Lemma runs_counted (f : ascii -> bool) (s : str) :
  len (runs f s) = run_starts f false s.
Proof.
  unfold len. induction s as [|c r IH]; [reflexivity|].
  cbn [runs run_starts]. destruct (f c) eqn:Fc; cbn [andb negb].
  - destruct r as [|d r']; [reflexivity|].
    cbn [run_starts] in *. destruct (f d) eqn:Fd; cbn [andb negb] in *.
    + destruct (runs f (d :: r')) as [|w ws] eqn:R.
      * exfalso. cbn [length] in IH.
        pose proof (run_starts_nonneg f r' true). lia.
      * cbn [length] in *. lia.
    + cbn [length]. rewrite Nat2Z.inj_succ. lia.
  - rewrite Z.add_0_l. exact IH.
Qed.

Lemma white_space_is_space (c : ascii) : white_space c = is_space c.
Proof. destruct c as [[] [] [] [] [] [] [] []]; reflexivity. Qed.

Lemma words_counted (content : str) :
  len (split content) = word_count content.
Proof.
  unfold split, word_count. rewrite runs_counted.
  apply run_starts_ext. intros c. rewrite white_space_is_space. reflexivity.
Qed.

Lemma run_starts_zero (f : ascii -> bool) (s : str) :
  (run_starts f false s =? 0)%Z = forallb (fun c => negb (f c)) s.
Proof.
  induction s as [|c r IH]; [reflexivity|].
  cbn [run_starts forallb]. destruct (f c); cbn [andb negb].
  - pose proof (run_starts_nonneg f r true). apply Z.eqb_neq. lia.
  - rewrite Z.add_0_l. exact IH.
Qed.

Lemma words_zero (content : str) :
  (len (split content) =? 0)%Z = no_words content.
Proof.
  rewrite words_counted. unfold word_count, no_words.
  rewrite run_starts_zero.
  induction content as [|c r IH]; [reflexivity|].
  cbn [forallb]. rewrite negb_involutive, IH. reflexivity.
Qed.

(** ** Syllables *)

(** The loop counter of [_count_syllables] is the number of vowel groups
    added to its start value. *)
Lemma count_vowel_groups_spec (word : str) :
  forall previous count,
    count_vowel_groups previous count word =
    (count + run_starts is_vowel previous word)%Z.
Proof.
  induction word as [|c r IH]; intros previous count;
    cbn [count_vowel_groups run_starts]; [lia|].
  rewrite IH. destruct (is_vowel c && negb previous); lia.
Qed.

Lemma vowel_of_lower (c : ascii) : is_vowel (lower_char c) = vowel c.
Proof. destruct c as [[] [] [] [] [] [] [] []]; reflexivity. Qed.

Lemma final_e_of_lower (c : ascii) :
  Ascii.eqb "e" (lower_char c) = Ascii.eqb c "e" || Ascii.eqb c "E".
Proof. destruct c as [[] [] [] [] [] [] [] []]; reflexivity. Qed.

Lemma vowel_groups_of_lower (word : str) :
  run_starts is_vowel false (lower word) = len (runs vowel word).
Proof.
  unfold lower. rewrite run_starts_map, runs_counted.
  apply run_starts_ext. exact vowel_of_lower.
Qed.

Lemma endswith_e_of_lower (word : str) :
  endswith "e" (lower word) = ends_in_e word.
Proof.
  unfold endswith, ends_in_e, lower. rewrite <- map_rev.
  change (rev (list_ascii_of_string "e")) with ["e"%char].
  destruct (rev word) as [|c r]; [reflexivity|].
  cbn [map startswith]. rewrite andb_true_r. apply final_e_of_lower.
Qed.

Lemma run_starts_positive (f : ascii -> bool) (word : str) :
  (exists c, In c word /\ f c = true) -> (1 <= run_starts f false word)%Z.
Proof.
  induction word as [|c r IH]; intros (v & Hin & Hv); [destruct Hin|].
  cbn [run_starts]. pose proof (run_starts_nonneg f r (f c)) as Hn.
  destruct (f c) eqn:Ec; cbn [andb negb]; [lia|].
  rewrite Z.add_0_l.
  destruct Hin as [-> | Hin]; [congruence|].
  apply IH. eauto.
Qed.

(** A word that ends in [e] has a vowel group. *)
Lemma final_e_has_group (word : str) :
  ends_in_e word = true -> (1 <= len (runs vowel word))%Z.
Proof.
  unfold ends_in_e. intros H.
  destruct (rev word) as [|c r] eqn:E; [discriminate|].
  rewrite runs_counted. apply run_starts_positive. exists c. split.
  - apply in_rev. rewrite E. left. reflexivity.
  - apply orb_true_iff in H. destruct H as [H | H];
      apply Ascii.eqb_eq in H; subst c; reflexivity.
Qed.

(** The code's syllable estimate is the one the specification words:
    lowering the word first makes the letters count in either case, and
    the test [count == 0] acts as a floor at 1 because the count is never
    negative. *)
Lemma syllables_estimated (word : str) :
  _count_syllables word = syllable_estimate word.
Proof.
  unfold _count_syllables, syllable_estimate.
  rewrite count_vowel_groups_spec, vowel_groups_of_lower, endswith_e_of_lower.
  pose proof (len_nonneg (runs vowel word)) as Hn.
  destruct (ends_in_e word) eqn:E.
  - pose proof (final_e_has_group word E) as Hp.
    destruct (0 + len (runs vowel word) - 1 =? 0)%Z eqn:Z0;
      rewrite ?Z.eqb_eq, ?Z.eqb_neq in Z0; lia.
  - destruct (0 + len (runs vowel word) =? 0)%Z eqn:Z0;
      rewrite ?Z.eqb_eq, ?Z.eqb_neq in Z0; lia.
Qed.

Lemma syllables_counted (content : str) :
  sum_Z (map _count_syllables (split content)) = syllable_count content.
Proof.
  unfold syllable_count. f_equal. apply map_ext. exact syllables_estimated.
Qed.

(** ** The score *)

Lemma truediv_nonzero (a b : Z) :
  b <> 0%Z -> Binary64.truediv a b = Return (Binary64.quotient a b).
Proof.
  intros H. unfold Binary64.truediv.
  destruct (b =? 0)%Z eqn:E; [apply Z.eqb_eq in E; congruence | reflexivity].
Qed.

(** The readability score never raises; it is the binary64 number nearest
    to a tenth between 0 and 100; it is 50 without terminal punctuation or
    without words, and the clamped and rounded reading ease otherwise. *)
Lemma readability_value (content : str) :
  exists r : float,
    _calculate_readability content = Return r /\
    (exists tenths : Z,
        (0 <= tenths <= 1000)%Z /\
        r = (Binary64.of_Z tenths / Binary64.of_Z 10)%float) /\
    (if no_terminal_punctuation content || no_words content
     then r = 50%float
     else r = Binary64.round
                (clamp 0 100
                   (flesch_reading_ease (word_count content)
                      (sentence_count content) (syllable_count content))) 1).
Proof.
  unfold _calculate_readability.
  rewrite sentences_zero, words_zero.
  destruct (no_terminal_punctuation content || no_words content) eqn:E.
  - exists 50%float. split; [reflexivity|]. split; [|reflexivity].
    exists 500%Z. split; [lia | vm_compute; reflexivity].
  - apply orb_false_iff in E. destruct E as [Es Ew].
    rewrite <- sentences_zero in Es. rewrite <- words_zero in Ew.
    apply Z.eqb_neq in Es, Ew.
    rewrite !truediv_nonzero by assumption. cbn [bind].
    rewrite syllables_counted, words_counted, sentences_counted.
    fold (flesch_reading_ease (word_count content) (sentence_count content)
            (syllable_count content)).
    set (score := flesch_reading_ease _ _ _).
    fold (clamp 0 100 score).
    eexists. split; [reflexivity|]. split; [|reflexivity].
    destruct (clamp_range score) as [C0 C100].
    exact (round1_range _ C0 C100).
Qed.

End ReadabilityFacts.

(* ================================================================== *)
(** * Stable sorting and keyword ranking *)
(* ================================================================== *)

Module SortFacts.

Section Insertion.
Context {A : Type} (before : A -> A -> bool).

Lemma insert_perm (x : A) (l : list A) :
  Permutation (x :: l) (insert before x l).
Proof.
  induction l as [|y r IH]; cbn; [reflexivity|].
  destruct (before x y); [reflexivity|].
  rewrite perm_swap. apply perm_skip. exact IH.
Qed.

Lemma sorted_perm (l : list A) : Permutation l (sorted before l).
Proof.
  induction l as [|x r IH]; cbn; [reflexivity|].
  rewrite <- insert_perm. apply perm_skip. exact IH.
Qed.

Lemma sorted_length (l : list A) : length (sorted before l) = length l.
Proof. symmetry. apply Permutation_length. apply sorted_perm. Qed.

(** A class [p] of elements is kept in order when an element of the
    class is never carried past another one. *)
Variable p : A -> bool.
Hypothesis class_not_passed :
  forall x y, p x = true -> before x y = false -> p y = false.

Lemma filter_insert (x : A) (l : list A) :
  filter p (insert before x l) =
  if p x then x :: filter p l else filter p l.
Proof.
  induction l as [|y r IH]; cbn; [reflexivity|].
  destruct (before x y) eqn:B; cbn.
  - reflexivity.
  - rewrite IH. destruct (p x) eqn:Px.
    + rewrite (class_not_passed x y Px B). reflexivity.
    + reflexivity.
Qed.

Lemma filter_sorted (l : list A) :
  filter p (sorted before l) = filter p l.
Proof.
  induction l as [|x r IH]; cbn; [reflexivity|].
  rewrite filter_insert, IH. reflexivity.
Qed.
End Insertion.

Section Order.
Context {A : Type} (before : A -> A -> bool).
Hypothesis before_total : forall x y, before x y = false -> before y x = true.
Hypothesis before_trans :
  forall x y z, before x y = true -> before y z = true -> before x z = true.

Lemma insert_in_order (x : A) (l : list A) :
  StronglySorted (in_order before) l ->
  StronglySorted (in_order before) (insert before x l).
Proof.
  induction 1 as [|y r Hr IH Hy]; cbn.
  - repeat constructor.
  - destruct (before x y) eqn:B.
    + constructor; [constructor; assumption|].
      constructor; [exact B|].
      rewrite Forall_forall in *. intros z Hz.
      eapply before_trans; [exact B | apply Hy; exact Hz].
    + constructor; [exact IH|].
      rewrite Forall_forall in *. intros z Hz.
      apply (Permutation_in _ (Permutation_sym (insert_perm before x r))) in Hz.
      destruct Hz as [<- | Hz]; [apply before_total; exact B | apply Hy; exact Hz].
Qed.

Lemma sorted_in_order (l : list A) :
  StronglySorted (in_order before) (sorted before l).
Proof.
  induction l as [|x r IH]; cbn; [constructor | apply insert_in_order; exact IH].
Qed.
End Order.

(** ** Relative order *)

Lemma in_firstn {A : Type} (x : A) (n : nat) (l : list A) :
  In x (firstn n l) -> In x l.
Proof.
  intros H. rewrite <- (firstn_skipn n l). apply in_or_app. left. exact H.
Qed.

Lemma precedes_firstn {A : Type} (a b : A) (n : nat) (l : list A) :
  precedes a b (firstn n l) -> precedes a b l.
Proof.
  intros (l1 & l2 & l3 & E).
  exists l1, l2, (l3 ++ skipn n l).
  rewrite <- (firstn_skipn n l) at 1. rewrite E.
  rewrite <- !app_assoc. cbn. rewrite <- !app_assoc. reflexivity.
Qed.

Lemma precedes_filter {A : Type} (p : A -> bool) (a b : A) (l : list A) :
  precedes a b l -> p a = true -> p b = true -> precedes a b (filter p l).
Proof.
  intros (l1 & l2 & l3 & ->) Ha Hb.
  exists (filter p l1), (filter p l2), (filter p l3).
  rewrite filter_app. cbn. rewrite Ha, filter_app. cbn. rewrite Hb. reflexivity.
Qed.

Lemma filter_split {A : Type} (p : A -> bool) (l : list A) :
  forall (m1 : list A) (x : A) (m2 : list A),
    filter p l = m1 ++ x :: m2 ->
    exists l1 l2, l = l1 ++ x :: l2 /\ filter p l1 = m1 /\ filter p l2 = m2.
Proof.
  induction l as [|y r IH]; intros m1 x m2 E; cbn in E.
  - destruct m1; discriminate.
  - destruct (p y) eqn:Py.
    + destruct m1 as [|z m1]; cbn in E; injection E as -> E.
      * exists [], r. cbn. auto.
      * destruct (IH _ _ _ E) as (l1 & l2 & -> & <- & <-).
        exists (z :: l1), l2. cbn. rewrite Py. auto.
    + destruct (IH _ _ _ E) as (l1 & l2 & -> & <- & <-).
      exists (y :: l1), l2. cbn. rewrite Py. auto.
Qed.

Lemma precedes_unfilter {A : Type} (p : A -> bool) (a b : A) (l : list A) :
  precedes a b (filter p l) -> precedes a b l.
Proof.
  intros (m1 & m2 & m3 & E).
  destruct (filter_split p l _ _ _ E) as (l1 & l2 & -> & _ & E2).
  destruct (filter_split p l2 _ _ _ E2) as (l3 & l4 & -> & _ & _).
  exists l1, l3, l4. reflexivity.
Qed.

Lemma filter_firstn_prefix {A : Type} (p : A -> bool) (n : nat) (l : list A) :
  prefix_of (filter p (firstn n l)) (filter p l).
Proof.
  exists (filter p (skipn n l)). rewrite <- filter_app, firstn_skipn. reflexivity.
Qed.

Lemma precedes_map {A B : Type} (f : A -> B) (a b : A) (l : list A) :
  precedes a b l -> precedes (f a) (f b) (map f l).
Proof.
  intros (l1 & l2 & l3 & ->).
  exists (map f l1), (map f l2), (map f l3).
  rewrite map_app. cbn. rewrite map_app. reflexivity.
Qed.

(** ** Ranking by [seo_score] *)

Lemma by_seo_score_total (x y : Keyword) :
  by_seo_score_desc x y = false -> by_seo_score_desc y x = true.
Proof.
  unfold by_seo_score_desc. intros H.
  apply Qle_bool_iff. apply NumFacts.Qle_bool_total. exact H.
Qed.

Lemma by_seo_score_trans (x y z : Keyword) :
  by_seo_score_desc x y = true -> by_seo_score_desc y z = true ->
  by_seo_score_desc x z = true.
Proof.
  unfold by_seo_score_desc. rewrite !Qle_bool_iff. intros H1 H2.
  eapply Qle_trans; eassumption.
Qed.

(** A keyword is never carried past a keyword of the same score. *)
Lemma same_score_not_passed (score : Q) (x y : Keyword) :
  Qeq_bool (kw_seo_score x) score = true ->
  by_seo_score_desc x y = false ->
  Qeq_bool (kw_seo_score y) score = false.
Proof.
  unfold by_seo_score_desc. intros Hx B.
  apply Qeq_bool_iff in Hx.
  destruct (Qeq_bool (kw_seo_score y) score) eqn:Hy; [|reflexivity].
  apply Qeq_bool_iff in Hy.
  assert (L : (kw_seo_score y <= kw_seo_score x)%Q) by (rewrite Hx, Hy; apply Qle_refl).
  apply Qle_bool_iff in L. congruence.
Qed.

(** Sorting keeps each score class in its original order. *)
Lemma sorted_keeps_score_classes (score : Q) (l : list Keyword) :
  scored score (sorted by_seo_score_desc l) = scored score l.
Proof.
  unfold scored. apply filter_sorted. intros x y. apply same_score_not_passed.
Qed.

Lemma top_is_ranked (l : list Keyword) :
  StronglySorted (fun x y => (kw_seo_score y <= kw_seo_score x)%Q) (select_top l).
Proof.
  unfold select_top, slice_to.
  pose proof (sorted_in_order by_seo_score_desc by_seo_score_total
                by_seo_score_trans l) as H.
  remember (sorted by_seo_score_desc l) as s eqn:Es. clear Es.
  assert (G : forall n, StronglySorted (in_order by_seo_score_desc) (firstn n s)).
  { induction H as [|x r Hr IH Hx]; intros [|n]; cbn; try constructor.
    - apply IH.
    - rewrite Forall_forall in *. intros z Hz. apply Hx.
      apply (in_firstn z n r). exact Hz. }
  specialize (G 4%nat).
  induction G as [|x r Hr IH Hx]; constructor; [exact IH|].
  rewrite Forall_forall in *. intros z Hz. apply Qle_bool_iff. apply Hx. exact Hz.
Qed.

End SortFacts.

(* ================================================================== *)
(** * Text: occurrences, replacement, substitution *)
(* ================================================================== *)

Module TextFacts.

Lemma absent_app (x : ascii) (a b : str) :
  absent x (a ++ b) = absent x a && absent x b.
Proof. apply forallb_app. Qed.

Lemma absent_cons (x c : ascii) (s : str) :
  absent x (c :: s) = negb (Ascii.eqb c x) && absent x s.
Proof. reflexivity. Qed.

Lemma absent_not_in (x : ascii) (s : str) :
  absent x s = true -> ~ In x s.
Proof.
  unfold absent. rewrite forallb_forall. intros H Hin.
  specialize (H x Hin). rewrite Ascii.eqb_refl in H. discriminate.
Qed.

Lemma plain_app (a b : str) : plain (a ++ b) = plain a && plain b.
Proof. apply forallb_app. Qed.

Lemma plain_cons (c : ascii) (s : str) :
  plain (c :: s) = plain_char c && plain s.
Proof. reflexivity. Qed.

Lemma plain_absent (s : str) :
  plain s = true ->
  absent "#" s = true /\ absent "*" s = true /\
  absent "<" s = true /\ absent LF s = true.
Proof.
  unfold plain, absent, plain_char. rewrite !forallb_forall. intros H.
  repeat split; intros c Hc; specialize (H c Hc);
    rewrite !andb_true_iff in H; tauto.
Qed.

Lemma lower_char_plain (c : ascii) :
  plain_char c = true -> plain_char (lower_char c) = true.
Proof. destruct c as [[] [] [] [] [] [] [] []]; vm_compute; auto. Qed.

Lemma upper_char_plain (c : ascii) :
  plain_char c = true -> plain_char (upper_char c) = true.
Proof. destruct c as [[] [] [] [] [] [] [] []]; vm_compute; auto. Qed.

Lemma lower_plain (s : str) : plain s = true -> plain (lower s) = true.
Proof.
  unfold plain, lower. rewrite !forallb_forall. intros H c Hc.
  apply in_map_iff in Hc. destruct Hc as (d & <- & Hd).
  apply lower_char_plain. apply H. exact Hd.
Qed.

Lemma title_from_plain (s : str) :
  forall previous, plain s = true -> plain (title_from previous s) = true.
Proof.
  unfold plain. induction s as [|c r IH]; intros previous H; [reflexivity|].
  cbn [title_from forallb] in *. apply andb_true_iff in H. destruct H as [Hc Hr].
  apply andb_true_iff. split; [|apply IH; exact Hr].
  destruct (is_cased c); [|exact Hc].
  destruct previous; [apply lower_char_plain | apply upper_char_plain]; exact Hc.
Qed.

Lemma title_plain (s : str) : plain s = true -> plain (title s) = true.
Proof. apply title_from_plain. Qed.

(** ** [startswith] *)

Lemma startswith_app (p s : str) : startswith p (p ++ s) = true.
Proof.
  induction p as [|a p IH]; [reflexivity|].
  cbn. rewrite Ascii.eqb_refl. exact IH.
Qed.

Lemma startswith_longer (w q s : str) :
  startswith w s = false -> startswith (w ++ q) s = false.
Proof.
  revert s. induction w as [|a w IH]; intros s H; [discriminate|].
  destruct s as [|b s]; [reflexivity|].
  cbn in *. destruct (Ascii.eqb a b); [apply IH; exact H | reflexivity].
Qed.

Lemma startswith_head_absent (x : ascii) (p s : str) :
  absent x s = true -> startswith (x :: p) s = false.
Proof.
  destruct s as [|c s]; [reflexivity|].
  rewrite absent_cons. intros H. apply andb_true_iff in H. destruct H as [H _].
  cbn. rewrite Ascii.eqb_sym. apply negb_true_iff in H. rewrite H. reflexivity.
Qed.

(** ** [replace] *)

Section Replace.
Variables (x : ascii) (o new : str).

(** Text without the first character of the old text is copied. *)
Lemma replace_skip (a b : str) :
  absent x a = true ->
  replace_from (x :: o) new 0 (a ++ b) = a ++ replace_from (x :: o) new 0 b.
Proof.
  induction a as [|c a IH]; intros H; [reflexivity|].
  rewrite absent_cons in H. apply andb_true_iff in H. destruct H as [Hc Ha].
  cbn [app replace_from].
  replace (startswith (x :: o) (c :: a ++ b)) with false.
  - rewrite IH by exact Ha. reflexivity.
  - cbn. rewrite Ascii.eqb_sym.
    apply negb_true_iff in Hc. rewrite Hc. reflexivity.
Qed.

Lemma replace_dropping (a b : str) :
  replace_from (x :: o) new (length a) (a ++ b) = replace_from (x :: o) new 0 b.
Proof. induction a as [|c a IH]; [reflexivity | exact IH]. Qed.

(** An occurrence of the old text is replaced and the scan goes on behind it. *)
Lemma replace_hit (b : str) :
  replace_from (x :: o) new 0 ((x :: o) ++ b) = new ++ replace_from (x :: o) new 0 b.
Proof.
  cbn [app replace_from].
  change (x :: o ++ b) with ((x :: o) ++ b). rewrite startswith_app.
  replace (length (x :: o) - 1)%nat with (length o) by (cbn [length]; lia).
  rewrite replace_dropping. reflexivity.
Qed.

Lemma replace_clean (s : str) :
  absent x s = true -> replace_from (x :: o) new 0 s = s.
Proof.
  intros H. rewrite <- (app_nil_r s) at 1.
  rewrite replace_skip by exact H. apply app_nil_r.
Qed.
End Replace.

Lemma never_followed_skip (x : ascii) (w a b : str) :
  absent x a = true -> never_followed x w (a ++ b) = never_followed x w b.
Proof.
  induction a as [|c a IH]; intros H; [reflexivity|].
  rewrite absent_cons in H. apply andb_true_iff in H. destruct H as [Hc Ha].
  cbn [app never_followed]. apply negb_true_iff in Hc. rewrite Hc.
  apply IH. exact Ha.
Qed.

Lemma never_followed_other (x c : ascii) (w r : str) :
  Ascii.eqb c x = false ->
  never_followed x w (c :: r) = never_followed x w r.
Proof. intros H. cbn. rewrite H. reflexivity. Qed.

Lemma never_followed_same (x : ascii) (w r : str) :
  startswith w r = false ->
  never_followed x w (x :: r) = never_followed x w r.
Proof. intros H. cbn. rewrite Ascii.eqb_refl, H. reflexivity. Qed.

(** When [x] is never followed by [w], a text that has [x] and then [w]
    somewhere inside does not occur. *)
Lemma never_followed_no_match (x : ascii) (w q : str) (p s : str) :
  never_followed x w s = true ->
  startswith (p ++ x :: w ++ q) s = false.
Proof.
  revert s. induction p as [|a p IH]; intros s H.
  - destruct s as [|c r]; [reflexivity|].
    cbn in *. apply andb_true_iff in H. destruct H as [H _].
    rewrite Ascii.eqb_sym.
    destruct (Ascii.eqb c x); [|reflexivity].
    apply negb_true_iff in H. cbn. apply startswith_longer. exact H.
  - destruct s as [|c r]; [reflexivity|].
    cbn in *. apply andb_true_iff in H. destruct H as [_ H].
    rewrite (IH r H). apply andb_false_r.
Qed.

Lemma replace_from_absent (x : ascii) (w q p new s : str) :
  never_followed x w s = true ->
  replace_from (p ++ x :: w ++ q) new 0 s = s.
Proof.
  intros H. induction s as [|c r IH]; [reflexivity|].
  cbn [replace_from].
  rewrite (never_followed_no_match x w q p (c :: r) H).
  cbn in H. apply andb_true_iff in H. destruct H as [_ H].
  rewrite (IH H). reflexivity.
Qed.

Lemma replace_absent (x : ascii) (w q p new s : str) :
  never_followed x w s = true ->
  replace (p ++ x :: w ++ q) new s = s.
Proof.
  intros H. pose proof (replace_from_absent x w q p new s H) as G.
  destruct p; exact G.
Qed.

(** ** Lines *)

Lemma split_on_nonempty (sep : ascii) (s : str) : split_on sep s <> [].
Proof.
  destruct s as [|c r]; cbn; [discriminate|].
  destruct (Ascii.eqb c sep); [discriminate|].
  destruct (split_on sep r); discriminate.
Qed.

Lemma split_on_app (sep : ascii) (a b : str) :
  absent sep a = true ->
  split_on sep (a ++ sep :: b) = a :: split_on sep b.
Proof.
  induction a as [|c a IH]; intros H.
  - cbn. rewrite Ascii.eqb_refl. reflexivity.
  - rewrite absent_cons in H. apply andb_true_iff in H. destruct H as [Hc Ha].
    cbn [app split_on]. apply negb_true_iff in Hc. rewrite Hc.
    rewrite (IH Ha). reflexivity.
Qed.

Lemma split_on_lines_absent (x sep : ascii) (s : str) :
  absent x s = true ->
  Forall (fun line => absent x line = true) (split_on sep s).
Proof.
  induction s as [|c r IH]; intros H.
  - repeat constructor.
  - rewrite absent_cons in H. apply andb_true_iff in H. destruct H as [Hc Hr].
    specialize (IH Hr). cbn [split_on].
    destruct (Ascii.eqb c sep).
    + constructor; [reflexivity | exact IH].
    + destruct (split_on sep r) as [|l ls]; [repeat constructor; cbn; rewrite Hc; reflexivity|].
      inversion IH; subst. constructor; [|assumption].
      rewrite absent_cons, Hc. assumption.
Qed.

Lemma join_cons (sep p : str) (ps : list str) :
  ps <> [] -> join sep (p :: ps) = p ++ sep ++ join sep ps.
Proof. destruct ps; [congruence | reflexivity]. Qed.

Lemma join_split_on (sep : ascii) (s : str) :
  join [sep] (split_on sep s) = s.
Proof.
  induction s as [|c r IH]; [reflexivity|].
  cbn [split_on]. destruct (Ascii.eqb c sep) eqn:E.
  - apply Ascii.eqb_eq in E. subst c.
    rewrite join_cons by apply split_on_nonempty. rewrite IH. reflexivity.
  - pose proof (split_on_nonempty sep r) as N.
    destruct (split_on sep r) as [|l ls]; [congruence|].
    destruct ls as [|l' ls]; cbn in *; rewrite <- IH; reflexivity.
Qed.

(** ** Headings *)

Lemma sub_heading_app (marker open close a b : str) :
  absent LF a = true ->
  Re.sub_heading marker open close (a ++ LF :: b) =
  Re.sub_heading_line marker open close a ++ LF ::
  Re.sub_heading marker open close b.
Proof.
  intros H. unfold Re.sub_heading. rewrite (split_on_app LF a b H).
  cbn [map]. rewrite join_cons; [reflexivity|].
  intros E. apply map_eq_nil in E. exact (split_on_nonempty _ _ E).
Qed.

(** A text without the first character of the marker has no heading. *)
Lemma sub_heading_absent (x : ascii) (m open close s : str) :
  absent x s = true ->
  Re.sub_heading (x :: m) open close s = s.
Proof.
  intros H. unfold Re.sub_heading.
  replace (map (Re.sub_heading_line (x :: m) open close) (split_on LF s))
    with (split_on LF s); [apply join_split_on|].
  pose proof (split_on_lines_absent x LF s H) as F.
  induction F as [|l ls Hl F IH]; [reflexivity|].
  cbn [map]. rewrite <- IH. f_equal.
  unfold Re.sub_heading_line. rewrite (startswith_head_absent x m l Hl).
  reflexivity.
Qed.

Lemma sub_heading_line_hit (marker open close text : str) :
  text <> [] ->
  Re.sub_heading_line marker open close (marker ++ text) =
  open ++ text ++ close.
Proof.
  intros N. unfold Re.sub_heading_line. rewrite startswith_app.
  replace (length marker <? length (marker ++ text))%nat with true.
  - cbn [andb]. rewrite skipn_app, Nat.sub_diag, skipn_all. reflexivity.
  - symmetry. apply Nat.ltb_lt. rewrite length_app.
    destruct text; [congruence | cbn; lia].
Qed.

(** ** Emphasis *)

Lemma sub_emphasis_absent (x : ascii) (d open close s : str) :
  absent x s = true ->
  Re.sub_emphasis (x :: d) open close s = s.
Proof.
  unfold Re.sub_emphasis. induction s as [|c r IH]; intros H; [reflexivity|].
  cbn [Re.sub_emphasis_from].
  rewrite (startswith_head_absent x d (c :: r) H).
  rewrite absent_cons in H. apply andb_true_iff in H. destruct H as [_ H].
  rewrite (IH H). reflexivity.
Qed.

End TextFacts.

(* ================================================================== *)
(** * The markdown renderer *)
(* ================================================================== *)

Module RenderFacts.
Import TextFacts.

(** Hypotheses on plain segments are turned into facts on single
    characters. *)
Ltac plain_facts :=
  repeat match goal with
         | H : plain ?s = true |- _ =>
             let H1 := fresh "Hhash" in
             let H2 := fresh "Hstar" in
             let H3 := fresh "Hlt" in
             let H4 := fresh "Hlf" in
             destruct (plain_absent s H) as (H1 & H2 & H3 & H4); clear H
         end.

(** Absence of a character in a text built from literals and plain
    segments. *)
Ltac absent_tac :=
  repeat first [rewrite absent_app | rewrite absent_cons];
  rewrite ?andb_true_iff;
  repeat split; first [assumption | reflexivity].

(** Stepping through a text built from literals and plain segments. *)
Ltac never_followed_tac :=
  repeat first [ rewrite never_followed_skip by assumption
               | rewrite never_followed_same by reflexivity
               | rewrite never_followed_other by reflexivity ];
  first [reflexivity | assumption].

Section Shape.
Variables ht intro body cta : str.
Hypothesis ht_nonempty : ht <> [].
Hypothesis ht_plain : plain ht = true.
Hypothesis intro_plain : plain intro = true.
Hypothesis body_plain : plain body = true.
Hypothesis cta_plain : plain cta = true.

Let content : str :=
  ("# " ++ ht) ++ [LF; LF] ++ intro ++ [LF; LF] ++ body ++ [LF; LF] ++ cta.

(** After the two heading substitutions. *)
Lemma headings_rendered :
  Re.sub_heading "## " "<h2>" "</h2>" (Re.sub_heading "# " "<h1>" "</h1>" content) =
  ("<h1>" ++ ht ++ "</h1>") ++ [LF; LF] ++ intro ++ [LF; LF] ++ body ++ [LF; LF] ++ cta.
Proof.
  subst content. plain_facts.
  change ([LF; LF] ++ intro ++ [LF; LF] ++ body ++ [LF; LF] ++ cta)
    with (LF :: (LF :: intro ++ [LF; LF] ++ body ++ [LF; LF] ++ cta)).
  rewrite sub_heading_app by absent_tac.
  rewrite sub_heading_line_hit by exact ht_nonempty.
  change (list_ascii_of_string "# ") with ("#"%char :: [" "%char]).
  rewrite sub_heading_absent by absent_tac.
  change (list_ascii_of_string "## ") with ("#"%char :: ["#"%char; " "%char]).
  rewrite sub_heading_absent by absent_tac.
  reflexivity.
Qed.

Let s1 : str :=
  ("<h1>" ++ ht ++ "</h1>") ++ [LF; LF] ++ intro ++ [LF; LF] ++ body ++ [LF; LF] ++ cta.

(** There is no emphasis to render. *)
Lemma emphasis_rendered :
  Re.sub_emphasis "*" "<em>" "</em>"
    (Re.sub_emphasis "**" "<strong>" "</strong>" s1) = s1.
Proof.
  subst s1. plain_facts.
  change (list_ascii_of_string "**") with ("*"%char :: ["*"%char]).
  rewrite sub_emphasis_absent by absent_tac.
  change (list_ascii_of_string "*") with ("*"%char :: []).
  rewrite sub_emphasis_absent by absent_tac.
  reflexivity.
Qed.

(** Each blank line becomes a paragraph break. *)
Lemma paragraphs_rendered :
  replace [LF; LF] "</p><p>" s1 =
  ("<h1>" ++ ht ++ "</h1>") ++ "</p><p>" ++ intro ++ "</p><p>" ++ body ++
  "</p><p>" ++ cta.
Proof.
  subst s1. plain_facts. unfold replace.
  rewrite replace_skip by absent_tac. rewrite replace_hit.
  rewrite replace_skip by absent_tac. rewrite replace_hit.
  rewrite replace_skip by absent_tac. rewrite replace_hit.
  rewrite replace_clean by absent_tac.
  reflexivity.
Qed.

Let s2 : str :=
  ("<h1>" ++ ht ++ "</h1>") ++ "</p><p>" ++ intro ++ "</p><p>" ++ body ++
  "</p><p>" ++ cta.

Let tail : str :=
  "<p>" ++ intro ++ "</p><p>" ++ body ++ "</p><p>" ++ cta ++ "</p>".

Lemma wrapped_form :
  "<p>" ++ s2 ++ "</p>" = "<p><h1>" ++ ht ++ "</h1></p>" ++ tail.
Proof. subst s2 tail. rewrite <- !app_assoc. reflexivity. Qed.

Lemma tail_has_no_heading (w : str) :
  w = "h" \/ w = "/h" \/ w = "h2" \/ w = "/h2" ->
  never_followed "<" w tail = true.
Proof.
  subst tail. plain_facts.
  intros [-> | [-> | [-> | ->]]]; cbn [app list_ascii_of_string]; never_followed_tac.
Qed.

Lemma text_has_no_heading2 (w : str) :
  w = "h2" \/ w = "/h2" ->
  never_followed "<" w ("<h1>" ++ ht ++ "</h1>" ++ tail) = true.
Proof.
  subst tail. plain_facts.
  intros [-> | ->]; cbn [app list_ascii_of_string]; never_followed_tac.
Qed.

(** The paragraph tags around the level-1 heading are removed, and
    nothing else is. *)
Lemma wrappers_removed :
  replace "</h2></p>" "</h2>"
    (replace "<p><h2>" "<h2>"
       (replace "</h1></p>" "</h1>"
          (replace "<p><h1>" "<h1>" ("<p>" ++ s2 ++ "</p>")))) =
  "<h1>" ++ ht ++ "</h1>" ++ tail.
Proof.
  rewrite wrapped_form.
  assert (E1 : replace "<p><h1>" "<h1>" ("<p><h1>" ++ ht ++ "</h1></p>" ++ tail) =
               "<h1>" ++ ht ++ "</h1></p>" ++ tail).
  { change (replace "<p><h1>" "<h1>" ("<p><h1>" ++ ht ++ "</h1></p>" ++ tail))
      with (replace_from ("<"%char :: "p><h1>") "<h1>" 0
              (("<"%char :: "p><h1>") ++ ht ++ "</h1></p>" ++ tail)).
    rewrite replace_hit. f_equal.
    change ("<"%char :: list_ascii_of_string "p><h1>")
      with (list_ascii_of_string "<p>" ++ "<"%char :: list_ascii_of_string "h" ++ list_ascii_of_string "1>").
    apply replace_from_absent.
    pose proof (tail_has_no_heading "h" (or_introl eq_refl)) as T.
    plain_facts.
    rewrite never_followed_skip by assumption.
    cbn [app list_ascii_of_string]. never_followed_tac. }
  rewrite E1.
  assert (E2 : replace "</h1></p>" "</h1>" ("<h1>" ++ ht ++ "</h1></p>" ++ tail) =
               "<h1>" ++ ht ++ "</h1>" ++ tail).
  { change (replace "</h1></p>" "</h1>" ("<h1>" ++ ht ++ "</h1></p>" ++ tail))
      with ("<"%char :: "h"%char :: "1"%char :: ">"%char ::
            replace_from ("<"%char :: "/h1></p>") "</h1>" 0
              (ht ++ ("<"%char :: "/h1></p>") ++ tail)).
    change (list_ascii_of_string "<h1>" ++ ht ++ list_ascii_of_string "</h1>" ++ tail)
      with ("<"%char :: "h"%char :: "1"%char :: ">"%char ::
            ht ++ list_ascii_of_string "</h1>" ++ tail).
    do 4 f_equal.
    pose proof (tail_has_no_heading "/h" (or_intror (or_introl eq_refl))) as T.
    plain_facts.
    rewrite replace_skip by assumption. rewrite replace_hit. f_equal. f_equal.
    change ("<"%char :: list_ascii_of_string "/h1></p>")
      with ([] ++ "<"%char :: list_ascii_of_string "/h" ++ list_ascii_of_string "1></p>").
    apply replace_from_absent. exact T. }
  rewrite E2.
  change (list_ascii_of_string "<p><h2>")
    with (list_ascii_of_string "<p>" ++ "<"%char :: list_ascii_of_string "h2" ++ list_ascii_of_string ">").
  rewrite replace_absent by (apply text_has_no_heading2; auto).
  change (list_ascii_of_string "</h2></p>")
    with ([] ++ "<"%char :: list_ascii_of_string "/h2" ++ list_ascii_of_string "></p>").
  rewrite replace_absent by (apply text_has_no_heading2; auto).
  reflexivity.
Qed.

(** The renderer on a post made of a marked headline and three plain
    paragraphs. *)
Lemma render_shape :
  _markdown_to_html content = "<h1>" ++ ht ++ "</h1>" ++ tail.
Proof.
  unfold _markdown_to_html.
  rewrite headings_rendered. fold s1.
  rewrite emphasis_rendered, paragraphs_rendered. fold s2.
  apply wrappers_removed.
Qed.

Lemma rendered_is_clean :
  absent "#" ("<h1>" ++ ht ++ "</h1>" ++ tail) = true /\
  absent "*" ("<h1>" ++ ht ++ "</h1>" ++ tail) = true.
Proof. subst tail. plain_facts. split; absent_tac. Qed.

End Shape.

(** Plainness of a text built from literals and plain segments. *)
Ltac plain_tac :=
  repeat first [rewrite plain_app | rewrite plain_cons];
  rewrite ?andb_true_iff;
  repeat split;
  first [ assumption
        | reflexivity
        | apply title_plain; assumption
        | apply lower_plain; assumption ].

Section Posts.
Import AIContentGenerator.
Variable hash : str -> Z.
Variable product : Product.
Variables k0 k1 k2 k3 : str.
Variable more : list str.
Hypothesis product_plain : plain_product product = true.
Hypothesis k0_plain : plain k0 = true.
Hypothesis k1_plain : plain k1 = true.
Hypothesis k2_plain : plain k2 = true.
Hypothesis k3_plain : plain k3 = true.

Let keywords : list str := k0 :: k1 :: k2 :: k3 :: more.

Lemma plain_post_renders :
  exists headline intro body cta : str,
    _generate_headline hash (p_title product) k0 = Return headline /\
    _generate_intro hash product keywords = Return intro /\
    _generate_body product keywords = Return body /\
    _generate_cta hash (p_title product) k0 = Return cta /\
    generate_blog_content hash product keywords =
      Return (headline ++ [LF; LF] ++ intro ++ [LF; LF] ++ body ++ [LF; LF] ++ cta) /\
    _markdown_to_html
      (headline ++ [LF; LF] ++ intro ++ [LF; LF] ++ body ++ [LF; LF] ++ cta) =
      "<h1>" ++ skipn 2 headline ++ "</h1><p>" ++ intro ++ "</p><p>" ++ body ++
      "</p><p>" ++ cta ++ "</p>" /\
    absent "#" ("<h1>" ++ skipn 2 headline ++ "</h1><p>" ++ intro ++ "</p><p>" ++
                body ++ "</p><p>" ++ cta ++ "</p>") = true /\
    absent "*" ("<h1>" ++ skipn 2 headline ++ "</h1><p>" ++ intro ++ "</p><p>" ++
                body ++ "</p><p>" ++ cta ++ "</p>") = true.
Proof.
  unfold plain_product in product_plain.
  rewrite !andb_true_iff in product_plain.
  destruct product_plain as (((((Pt & Pp) & Pr) & Pv) & Pc) & Pd).
  unfold generate_blog_content, _generate_structured_content, _generate_intro,
    _generate_body, _generate_headline, _generate_cta.
  change (index keywords 0) with (index keywords (Z.of_nat 0)).
  change (index keywords 1) with (index keywords (Z.of_nat 1)).
  change (index keywords 2) with (index keywords (Z.of_nat 2)).
  change (index keywords 3) with (index keywords (Z.of_nat 3)).
  rewrite !index_nth. subst keywords. cbn [nth_error bind]. rewrite !index_mod3. cbn [bind join].
  unfold pick3.
  destruct (hash (p_title product) mod 3)%Z as [|[p|p|]|p];
    do 4 eexists;
    (split; [reflexivity|]); (split; [reflexivity|]);
    (split; [reflexivity|]); (split; [reflexivity|]);
    (split; [reflexivity|]).
  all: match goal with
       | |- _markdown_to_html (?h ++ _ ++ ?i ++ _ ++ ?b ++ _ ++ ?c) = _ /\ _ =>
           assert (Hh : plain (skipn 2 h) = true) by (cbn [skipn list_ascii_of_string app]; plain_tac);
           assert (Hn : skipn 2 h <> [])
             by (cbn [skipn list_ascii_of_string app]; intros E;
                 apply (f_equal (@length ascii)) in E;
                 repeat rewrite length_app in E; cbn in E; lia);
           assert (Hi : plain i = true) by plain_tac;
           assert (Hb : plain b = true) by plain_tac;
           assert (Hc : plain c = true) by plain_tac;
           split;
           [ exact (render_shape (skipn 2 h) i b c Hn Hh Hi Hb Hc)
           | exact (rendered_is_clean (skipn 2 h) i b c Hh Hi Hb Hc) ]
       end.
Qed.

End Posts.
End RenderFacts.

(* ================================================================== *)
(** * Slugs *)
(* ================================================================== *)

Module SlugFacts.

Lemma sub_non_slug_text (s : str) : slug_text (Re.sub_non_slug s) = true.
Proof.
  unfold slug_text. induction s as [|c r IH]; [reflexivity|].
  cbn [Re.sub_non_slug]. destruct (Re.is_slug_char c) eqn:Ec.
  - cbn [forallb]. rewrite Ec, IH. reflexivity.
  - destruct r as [|d r']; [reflexivity|].
    destruct (Re.is_slug_char d); [|exact IH].
    cbn [forallb]. rewrite IH. reflexivity.
Qed.

Lemma drop_while_suffix (f : ascii -> bool) (s : str) :
  exists a, s = a ++ drop_while f s /\ forallb f a = true.
Proof.
  induction s as [|c r (a & E & F)]; [exists []; auto|].
  cbn [drop_while]. destruct (f c) eqn:Fc.
  - exists (c :: a). cbn. rewrite Fc, F, <- E. auto.
  - exists []. auto.
Qed.

Lemma drop_while_head (f : ascii -> bool) (s : str) (c : ascii) (r : str) :
  drop_while f s = c :: r -> f c = false.
Proof.
  induction s as [|d s IH]; [discriminate|].
  cbn [drop_while]. destruct (f d) eqn:Fd; [exact IH|].
  intros E. injection E as -> _. exact Fd.
Qed.

Lemma forallb_drop_while (g f : ascii -> bool) (s : str) :
  forallb g s = true -> forallb g (drop_while f s) = true.
Proof.
  destruct (drop_while_suffix f s) as (a & E & _).
  intros H. rewrite E, forallb_app in H. apply andb_true_iff in H. tauto.
Qed.

Lemma forallb_rev (g : ascii -> bool) (s : str) :
  forallb g s = true -> forallb g (rev s) = true.
Proof.
  rewrite !forallb_forall. intros H c Hc. apply H. apply in_rev. exact Hc.
Qed.

Lemma forallb_firstn (g : ascii -> bool) (n : nat) (s : str) :
  forallb g s = true -> forallb g (firstn n s) = true.
Proof.
  rewrite !forallb_forall. intros H c Hc. apply H.
  rewrite <- (firstn_skipn n s). apply in_or_app. left. exact Hc.
Qed.

(** Stripping leaves a piece of the text that neither starts nor ends with
    a stripped character. *)
Lemma strip_with_spec (f : ascii -> bool) (s : str) :
  exists a b,
    s = a ++ strip_with f s ++ b /\
    (forall c r, strip_with f s = c :: r -> f c = false) /\
    (forall c r, rev (strip_with f s) = c :: r -> f c = false).
Proof.
  unfold strip_with.
  destruct (drop_while_suffix f s) as (a & E & _).
  destruct (drop_while_suffix f (rev (drop_while f s))) as (b & E' & _).
  exists a, (rev b). repeat split.
  - rewrite <- rev_app_distr, <- E', rev_involutive. exact E.
  - intros c r H.
    assert (G : drop_while f s = c :: r ++ rev b).
    { rewrite <- (rev_involutive (drop_while f s)), E', rev_app_distr, H.
      reflexivity. }
    exact (drop_while_head f s c _ G).
  - intros c r H. rewrite rev_involutive in H.
    exact (drop_while_head f _ c r H).
Qed.

(** What holds of every slug: its alphabet, its length, its first
    character; and its last character when nothing was cut off. *)
Lemma slug_properties (title : str) :
  slug_text (_generate_slug title) = true /\
  (length (_generate_slug title) <= 60)%nat /\
  startswith "-" (_generate_slug title) = false /\
  ((length (strip_char "-" (Re.sub_non_slug (lower title))) <= 60)%nat ->
   endswith "-" (_generate_slug title) = false).
Proof.
  unfold _generate_slug, slice_to, strip_char.
  set (s := Re.sub_non_slug (lower title)).
  destruct (strip_with_spec (Ascii.eqb "-") s) as (a & b & E & Hhead & Hlast).
  repeat split.
  - unfold slug_text. apply forallb_firstn. unfold strip_with.
    apply forallb_rev, forallb_drop_while, forallb_rev, forallb_drop_while.
    apply sub_non_slug_text.
  - apply firstn_le_length.
  - destruct (strip_with (Ascii.eqb "-") s) as [|c r] eqn:S; [reflexivity|].
    cbn [firstn list_ascii_of_string startswith].
    specialize (Hhead c r eq_refl). rewrite Hhead. reflexivity.
  - intros L. rewrite firstn_all2 by exact L. unfold endswith.
    destruct (rev (strip_with (Ascii.eqb "-") s)) as [|c r] eqn:S; [reflexivity|].
    cbn [rev app list_ascii_of_string startswith].
    specialize (Hlast c r eq_refl). rewrite Hlast. reflexivity.
Qed.

End SlugFacts.

(* ================================================================== *)
(** * Keyword research *)
(* ================================================================== *)

Module ResearchFacts.

(** Four additions of different lengths, hence different. *)
Lemma additions_for_has_four (category term : str) :
  exists l : list str,
    length l = 4%nat /\ NoDup l /\ incl l (additions_for category term).
Proof.
  exists [term; "best " ++ term; "top " ++ term; "price " ++ term].
  split; [reflexivity|]. split.
  - assert (D : forall a b : str, length a <> length b -> a <> b) by congruence.
    repeat constructor; cbn [In]; intros H;
      repeat (destruct H as [H | H]; [revert H; apply D; cbn; lia|]);
      exact H.
  - intros x Hx. unfold additions_for. cbn [In] in Hx.
    cbn. tauto.
Qed.

Lemma list_of_set_length (slot : str -> Z) (added : list str) :
  length (list_of_set slot added) = length (nodup str_eq_dec added).
Proof. unfold list_of_set. apply SortFacts.sorted_length. Qed.

Lemma additions_empty (base_terms : list str) (category : str) :
  core_terms_of base_terms = [] -> additions base_terms category = [].
Proof. unfold additions. intros ->. reflexivity. Qed.

Lemma additions_many (base_terms : list str) (category : str) :
  core_terms_of base_terms <> [] ->
  (4 <= length (nodup str_eq_dec (additions base_terms category)))%nat.
Proof.
  unfold additions. destruct (core_terms_of base_terms) as [|t r]; [congruence|].
  intros _.
  destruct (additions_for_has_four category t) as (l & L & N & I).
  rewrite <- L. apply NoDup_incl_length; [exact N|].
  intros x Hx. apply nodup_In. cbn [flat_map].
  apply in_or_app. left. apply in_or_app. left. apply I. exact Hx.
Qed.

(** Keyword research selects no keyword when the title has no word of
    more than four letters, and four keywords otherwise. *)
Lemma research_selects_none_or_four (slot : str -> Z) (self : Pipeline)
      (product : Product) :
  match core_terms_of (Re.findall_words4 (lower (p_title product))) with
  | [] => fst (research_seo_keywords slot self product) = []
  | _ :: _ => length (fst (research_seo_keywords slot self product)) = 4%nat
  end.
Proof.
  cbn [research_seo_keywords fst].
  unfold select_top, slice_to, _generate_keyword_variations.
  destruct (core_terms_of (Re.findall_words4 (lower (p_title product))))
    as [|t r] eqn:E.
  - rewrite (additions_empty _ _ E). reflexivity.
  - rewrite length_firstn, SortFacts.sorted_length.
    unfold _analyze_keywords. rewrite length_map, list_of_set_length.
    assert (N : core_terms_of (Re.findall_words4 (lower (p_title product))) <> [])
      by (rewrite E; discriminate).
    pose proof (additions_many _ (p_category product) N). lia.
Qed.

End ResearchFacts.

(* ================================================================== *)
(** * Blog posts and the report *)
(* ================================================================== *)

Module PipelineFacts.
Import AIContentGenerator.

Lemma blog_post_short (hash : str -> Z) (self : Pipeline) (now : str)
      (product : Product) (keywords : list Keyword) :
  (length keywords < 4)%nat ->
  generate_blog_post hash self now product keywords = Raise IndexError.
Proof.
  intros H. unfold generate_blog_post, generate_blog_content.
  rewrite TemplaterFacts.structured_content_short by (rewrite length_map; exact H).
  reflexivity.
Qed.

Lemma blog_post_returns (hash : str -> Z) (self : Pipeline) (now : str)
      (product : Product) (keywords : list Keyword) :
  (4 <= length keywords)%nat ->
  exists post self',
    generate_blog_post hash self now product keywords = Return (post, self') /\
    blog_posts self' = blog_posts self ++ [post] /\
    bp_keywords post = map kw_keyword keywords.
Proof.
  intros H. unfold generate_blog_post, generate_blog_content.
  destruct (TemplaterFacts.structured_content_returns hash product
              (map kw_keyword keywords)) as (content & ->);
    [rewrite length_map; exact H|].
  cbn [bind].
  destruct keywords as [|k r]; [cbn in H; lia|].
  cbn [map]. rewrite PostScoreFacts.seo_score_nonempty. cbn [bind].
  destruct (ReadabilityFacts.readability_value content) as (x & -> & _).
  cbn [bind]. do 2 eexists. repeat split.
Qed.

(** One round of the driver fails exactly on the titles without a word of
    more than four letters. *)
Lemma process_product_outcome (hash slot : str -> Z) (now : str)
      (self : Pipeline) (product : Product) :
  match core_terms_of (Re.findall_words4 (lower (p_title product))) with
  | [] => process_product hash slot now self product = Raise IndexError
  | _ :: _ => exists self', process_product hash slot now self product = Return self'
  end.
Proof.
  pose proof (ResearchFacts.research_selects_none_or_four slot self product) as R.
  unfold process_product.
  destruct (research_seo_keywords slot self product) as [keywords self1].
  cbn [fst] in R.
  destruct (core_terms_of (Re.findall_words4 (lower (p_title product)))).
  - subst keywords. rewrite blog_post_short by (cbn; lia). reflexivity.
  - destruct (blog_post_returns hash self1 now product keywords)
      as (post & self2 & -> & _); [lia|].
    cbn [bind snd]. eauto.
Qed.

(** The guarded division of the summary never raises. *)
Lemma average_words_defined (m : Metrics) :
  exists v, floordiv (total_words m) (Z.max (blogs_generated m) 1) = Return v.
Proof.
  unfold floordiv.
  destruct (Z.max (blogs_generated m) 1 =? 0)%Z eqn:E; [|eauto].
  apply Z.eqb_eq in E. lia.
Qed.

Lemma next_product_outcome (ps : list Product) (product_id : str) :
  (exists p, next_product ps product_id = Return p) \/
  next_product ps product_id = Raise StopIteration.
Proof.
  induction ps as [|q qs IH]; cbn; [auto|].
  destruct (str_eqb (p_id q) product_id); eauto.
Qed.

(** The loop over the keyword database returns or stops at an identifier
    without product. *)
Lemma keyword_section_outcome (ps : list Product)
      (db : list (str * list Keyword)) :
  forall acc : list (Product * list Keyword),
    let body := fun acc (e : str * list Keyword) =>
                  product <- next_product ps (fst e) ;;
                  Return (acc ++ [(product, snd e)]) in
    (exists ks, for_each body db acc = Return ks) \/
    for_each body db acc = Raise StopIteration.
Proof.
  induction db as [|e r IH]; intros acc body; cbn [for_each].
  - eauto.
  - subst body. cbn beta.
    destruct (next_product_outcome ps (fst e)) as [(p & ->) | ->]; cbn [bind].
    + apply IH.
    + auto.
Qed.

(** Without posts the report is never produced. *)
Lemma report_without_posts (self : Pipeline) :
  blog_posts self = [] ->
  generate_comprehensive_report self = Raise ZeroDivisionError \/
  generate_comprehensive_report self = Raise StopIteration.
Proof.
  intros E. unfold generate_comprehensive_report. rewrite E.
  destruct (average_words_defined (performance_metrics self)) as (v & ->).
  cbn [bind].
  destruct (keyword_section_outcome (products self) (keywords_database self) [])
    as [(ks & ->) | ->]; cbn; auto.
Qed.

End PipelineFacts.

(* ================================================================== *)
(** * The order of insertion *)
(* ================================================================== *)

Module InsertionFacts.

Lemma str_eqb_true (a b : str) : str_eqb a b = true <-> a = b.
Proof. unfold str_eqb. destruct (str_eq_dec a b); split; congruence. Qed.

Lemma existsb_in (x : str) (l : list str) :
  In x l -> existsb (str_eqb x) l = true.
Proof.
  intros H. apply existsb_exists. exists x. split; [exact H|].
  apply str_eqb_true. reflexivity.
Qed.

(** Two elements of a list at the same first place are the same. *)
Lemma position_injective (x y : str) (l : list str) :
  In x l -> In y l -> position x l = position y l -> x = y.
Proof.
  induction l as [|z r IH]; intros Hx Hy E; [destruct Hx|].
  cbn [position] in E.
  assert (P : forall w, (0 <= position w r)%Z).
  { intros w. clear. induction r as [|v r IH]; cbn [position]; [lia|].
    destruct (str_eqb v w); lia. }
  destruct (str_eqb z x) eqn:Ex, (str_eqb z y) eqn:Ey.
  - apply str_eqb_true in Ex, Ey. congruence.
  - pose proof (P y). lia.
  - pose proof (P x). lia.
  - destruct Hx as [-> | Hx];
      [rewrite (proj2 (str_eqb_true x x) eq_refl) in Ex; discriminate|].
    destruct Hy as [-> | Hy];
      [rewrite (proj2 (str_eqb_true y y) eq_refl) in Ey; discriminate|].
    apply IH; [assumption | assumption | lia].
Qed.

(** Of two different elements of a list one is added first. *)
Lemma added_before_total (x y : str) (added : list str) :
  In x added -> In y added -> x <> y ->
  added_before x y added = true \/ added_before y x added = true.
Proof.
  intros Hx Hy N. unfold added_before.
  rewrite (existsb_in x added Hx), (existsb_in y added Hy). cbn [andb].
  destruct (Z.lt_trichotomy (position x added) (position y added)) as [L | [E | G]].
  - left. apply Z.ltb_lt. exact L.
  - exfalso. apply N. exact (position_injective x y added Hx Hy E).
  - right. apply Z.ltb_lt. lia.
Qed.

Lemma added_before_position (x y : str) (added : list str) :
  added_before x y added = true -> (position x added < position y added)%Z.
Proof.
  unfold added_before. intros H.
  apply andb_true_iff in H. destruct H as [_ H].
  apply Z.ltb_lt in H. exact H.
Qed.

Lemma precedes_in {A : Type} (a b : A) (l : list A) :
  precedes a b l -> In a l /\ In b l.
Proof.
  intros (l1 & l2 & l3 & ->). split.
  - apply in_or_app. right. left. reflexivity.
  - apply in_or_app. right. right. apply in_or_app. right. left. reflexivity.
Qed.

Lemma precedes_distinct {A : Type} (a b : A) (l : list A) :
  NoDup l -> precedes a b l -> a <> b.
Proof.
  intros N (l1 & l2 & l3 & ->) E. subst b.
  apply NoDup_remove_2 in N. apply N.
  apply in_or_app. right. apply in_or_app. right. left. reflexivity.
Qed.

Lemma precedes_in_order {A : Type} (R : A -> A -> Prop) (a b : A) (l : list A) :
  StronglySorted R l -> precedes a b l -> R a b.
Proof.
  intros S (l1 & l2 & l3 & ->).
  induction l1 as [|c l1 IH].
  - cbn [app] in S. apply StronglySorted_inv in S. destruct S as [_ F].
    rewrite Forall_forall in F. apply F.
    apply in_or_app. right. left. reflexivity.
  - cbn [app] in S. apply StronglySorted_inv in S. destruct S as [S _].
    exact (IH S).
Qed.

Section Table.
Variable slot : str -> Z.

Lemma by_slot_total (x y : str) : by_slot slot x y = false -> by_slot slot y x = true.
Proof. unfold by_slot. rewrite Z.leb_gt, Z.leb_le. lia. Qed.

Lemma by_slot_trans (x y z : str) :
  by_slot slot x y = true -> by_slot slot y z = true -> by_slot slot x z = true.
Proof. unfold by_slot. rewrite !Z.leb_le. lia. Qed.

(** When the table lists the elements in the order of their insertion,
    so does the list of the set. *)
Lemma listed_as_added (added : list str) (x y : str) :
  (forall u v, added_before u v added = true -> (slot u < slot v)%Z) ->
  precedes x y (list_of_set slot added) ->
  added_before x y added = true.
Proof.
  intros M P. unfold list_of_set in P.
  pose proof (SortFacts.sorted_perm (by_slot slot) (nodup str_eq_dec added)) as Perm.
  assert (N : NoDup (sorted (by_slot slot) (nodup str_eq_dec added))).
  { eapply Permutation_NoDup; [exact Perm | apply NoDup_nodup]. }
  destruct (precedes_in x y _ P) as [Ix Iy].
  apply (Permutation_in _ (Permutation_sym Perm)) in Ix, Iy.
  apply nodup_In in Ix, Iy.
  pose proof (precedes_distinct x y _ N P) as D.
  pose proof (precedes_in_order _ x y _
                (SortFacts.sorted_in_order (by_slot slot) by_slot_total by_slot_trans _) P)
    as O.
  unfold in_order, by_slot in O. apply Z.leb_le in O.
  destruct (added_before_total x y added Ix Iy D) as [H | H]; [exact H|].
  specialize (M y x H). lia.
Qed.

End Table.

End InsertionFacts.

(* ================================================================== *)
(** * The examples of the specification *)
(* ================================================================== *)

Module SpecExamples.

(** The variations of [wireless] and [headphones] in [Electronics]. *)
Example variations_of_wireless_headphones :
  forallb (fun kw => existsb (str_eqb kw)
                       (additions ["wireless" : str; "headphones" : str] "Electronics"))
          ["wireless" : str; "wireless electronics" : str; "best wireless" : str;
           "wireless headphones" : str; "best wireless headphones" : str] = true.
Proof. vm_compute. reflexivity. Qed.

(** No keyword found, no sentence, no heading, no call to action. *)
Example empty_handed_content :
  _calculate_blog_seo_score "plain words only" ["zebra" : str] = Return 0%Z /\
  _calculate_readability "plain words only" = Return 50%float.
Proof. split; vm_compute; reflexivity. Qed.

(** A text of 8 words, 2 sentences and 11 syllables: the reading ease is
    86.45 in exact arithmetic and a little more in binary64, which rounds
    to 86.5. *)
Example readability_at_a_tie :
  _calculate_readability "baba baba baba a a a a. a." = Return 86.5%float /\
  ((206835 # 1000) - (1015 # 1000) * (8 # 2) - (846 # 10) * (11 # 8) == 8645 # 100)%Q.
Proof. split; vm_compute; reflexivity. Qed.

(** The driver on the four mock products: four posts of 100 to 260
    words, four keywords each. *)
Example main_on_mock_products :
  match main (CPython.str_hash 0 0) Examples.insertion_slot Examples.noon with
  | Return report =>
      length (r_posts report) = 4%nat /\
      forallb (fun post => ((100 <=? bp_word_count post) &&
                            (bp_word_count post <=? 260))%Z &&
                           (length (bp_keywords post) =? 4)%nat)
              (r_posts report) = true
  | Raise _ => False
  end.
Proof. vm_compute. split; reflexivity. Qed.

End SpecExamples.

(* ================================================================== *)
(** * The properties of the specification *)
(* ================================================================== *)

(** ** Degenerate keyword lists *)

(** C1 (counterexample). For a title without a word of more than four
    letters keyword research selects nothing, nothing is padded, and the
    round of the driver for that product stops with an index error. *)
Lemma short_title_is_not_padded :
  fst (research_seo_keywords Examples.insertion_slot init Examples.lamp) = [] /\
  process_product (CPython.str_hash 0 0) Examples.insertion_slot Examples.noon
                  init Examples.lamp = Raise IndexError.
Proof. split; vm_compute; reflexivity. Qed.

(** C1 (amended). When keyword research selects fewer than four keywords,
    generating the blog post raises an index error at one of
    [keywords[0]] .. [keywords[3]]; the list is not padded. *)
Theorem too_few_keywords_raise (hash slot : str -> Z) (now : str)
        (self : Pipeline) (product : Product) :
  (length (fst (research_seo_keywords slot self product)) < 4)%nat ->
  process_product hash slot now self product = Raise IndexError.
Proof.
  intros H. unfold process_product.
  destruct (research_seo_keywords slot self product) as [keywords self'].
  cbn [fst] in H.
  rewrite (PipelineFacts.blog_post_short hash self' now product keywords H).
  reflexivity.
Qed.

Lemma too_few_keywords_raise_witness :
  (length (fst (research_seo_keywords Examples.insertion_slot init Examples.lamp)) < 4)%nat /\
  process_product (CPython.str_hash 0 0) Examples.insertion_slot Examples.noon
                  init Examples.lamp = Raise IndexError.
Proof.
  split.
  - vm_compute. lia.
  - apply (too_few_keywords_raise (CPython.str_hash 0 0) Examples.insertion_slot
             Examples.noon init Examples.lamp).
    vm_compute. lia.
Defined.

(** ** Template selection *)

(** C2 (code as it is). The variant is chosen by the interpreter's own
    string hash, which depends on the secret of the process: for the first
    mock product the headline, and with it the text of the post, is not
    the same under [PYTHONHASHSEED=0] and under [PYTHONHASHSEED=1]. *)
Theorem template_choice_follows_hash_secret :
  AIContentGenerator._generate_headline
    (CPython.str_hash_seeded 0) (p_title PROD001) "best premium noise" =
  Return ("# Premium Noise Cancelling Wireless Headphones Review: The Ultimate Best Premium Noise" : str) /\
  AIContentGenerator._generate_headline
    (CPython.str_hash_seeded 1) (p_title PROD001) "best premium noise" =
  Return ("# Best Premium Noise: Why Premium Noise Cancelling Wireless Headphones is Taking Over" : str) /\
  AIContentGenerator.generate_blog_content
    (CPython.str_hash_seeded 0) PROD001 Examples.four_keywords <>
  AIContentGenerator.generate_blog_content
    (CPython.str_hash_seeded 1) PROD001 Examples.four_keywords.
Proof.
  split; [vm_compute; reflexivity|]. split; [vm_compute; reflexivity|].
  intros E.
  apply (f_equal (fun r => match r with
                           | Return s => nth 2 s " "%char
                           | Raise _ => " "%char
                           end)) in E.
  vm_compute in E. discriminate E.
Qed.

(** ** Keyword ranking *)

Lemma analyzed_keywords_text (keywords : list str) :
  map kw_keyword (_analyze_keywords keywords) = keywords.
Proof.
  unfold _analyze_keywords. rewrite map_map. cbn. apply map_id.
Qed.

(** C3 (amended). Two selected keywords of equal [seo_score] stand in the
    selection in the order of the list that the variation generator
    returned, which is the order in which the set lists its elements,
    whatever that order is; and the selected keywords of one score are the
    first of that score in that list. They stand in the order of their
    insertion when the table of the set lists the elements in that
    order. *)
Theorem ranking_is_stable (slot : str -> Z) (self : Pipeline) (product : Product)
        (a b : Keyword) :
  let added :=
    additions (Re.findall_words4 (lower (p_title product))) (p_category product) in
  let generated :=
    _generate_keyword_variations slot
      (Re.findall_words4 (lower (p_title product))) (p_category product) in
  precedes a b (fst (research_seo_keywords slot self product)) ->
  kw_seo_score a == kw_seo_score b ->
  precedes a b (_analyze_keywords generated) /\
  precedes (kw_keyword a) (kw_keyword b) generated /\
  prefix_of (scored (kw_seo_score a) (fst (research_seo_keywords slot self product)))
            (scored (kw_seo_score a) (_analyze_keywords generated)) /\
  ((forall x y, added_before x y added = true -> (slot x < slot y)%Z) ->
   added_before (kw_keyword a) (kw_keyword b) added = true).
Proof.
  intros added generated Hab Hs.
  assert (G : precedes a b (_analyze_keywords generated)).
  { cbn [research_seo_keywords fst] in Hab. fold generated in Hab.
    unfold select_top, slice_to in Hab.
    apply SortFacts.precedes_firstn in Hab.
    apply (SortFacts.precedes_filter
             (fun k => Qeq_bool (kw_seo_score k) (kw_seo_score a))) in Hab.
    - fold (scored (kw_seo_score a) (sorted by_seo_score_desc (_analyze_keywords generated))) in Hab.
      rewrite SortFacts.sorted_keeps_score_classes in Hab.
      exact (SortFacts.precedes_unfilter _ _ _ _ Hab).
    - apply Qeq_bool_iff. reflexivity.
    - apply Qeq_bool_iff. symmetry. exact Hs. }
  assert (K : precedes (kw_keyword a) (kw_keyword b) generated).
  { rewrite <- (analyzed_keywords_text generated).
    apply SortFacts.precedes_map. exact G. }
  split; [exact G|]. split; [exact K|]. split.
  - cbn [research_seo_keywords fst]. fold generated.
    unfold select_top, slice_to.
    rewrite <- (SortFacts.sorted_keeps_score_classes (kw_seo_score a)
                  (_analyze_keywords generated)).
    apply SortFacts.filter_firstn_prefix.
  - intros M. exact (InsertionFacts.listed_as_added slot added _ _ M K).
Qed.

Lemma ranking_is_stable_witness :
  let a := analyze_one "best premium" in
  let b := analyze_one "premium best" in
  let added :=
    additions (Re.findall_words4 (lower (p_title PROD001))) (p_category PROD001) in
  let slot := fun x => position x added in
  let generated :=
    _generate_keyword_variations slot
      (Re.findall_words4 (lower (p_title PROD001))) (p_category PROD001) in
  precedes a b (fst (research_seo_keywords slot init PROD001)) /\
  kw_seo_score a == kw_seo_score b /\
  precedes a b (_analyze_keywords generated) /\
  precedes (kw_keyword a) (kw_keyword b) generated /\
  prefix_of (scored (kw_seo_score a) (fst (research_seo_keywords slot init PROD001)))
            (scored (kw_seo_score a) (_analyze_keywords generated)) /\
  added_before (kw_keyword a) (kw_keyword b) added = true.
Proof.
  intros a b added slot generated.
  assert (H1 : precedes a b (fst (research_seo_keywords slot init PROD001))).
  { exists [analyze_one "best premium noise"], [], [analyze_one "top premium"].
    vm_compute. reflexivity. }
  assert (H2 : kw_seo_score a == kw_seo_score b) by (vm_compute; reflexivity).
  assert (M : forall x y, added_before x y added = true -> (slot x < slot y)%Z)
    by (intros x y; exact (InsertionFacts.added_before_position x y added)).
  destruct (ranking_is_stable slot init PROD001 a b H1 H2) as (G & K & P & I).
  split; [exact H1|]. split; [exact H2|]. split; [exact G|].
  split; [exact K|]. split; [exact P|]. exact (I M).
Defined.

(** C3 (counterexample). Under [PYTHONHASHSEED=0] the interpreter lists
    the variations of the first mock product in the order of their hash
    table, and the selection reads [best premium noise], [cancelling top],
    [best cancelling], [top premium]. The last three have the same score
    and were added in the opposite order: [top premium] before
    [best cancelling] before [cancelling top]. *)
Lemma ties_are_not_in_insertion_order :
  let added :=
    additions (Re.findall_words4 (lower (p_title PROD001))) (p_category PROD001) in
  let selection := fst (research_seo_keywords Examples.seed0_slot init PROD001) in
  _generate_keyword_variations Examples.seed0_slot
    (Re.findall_words4 (lower (p_title PROD001))) (p_category PROD001) =
    CPython.list_of_set (CPython.str_hash_seeded 0) added /\
  map kw_keyword selection =
    ["best premium noise" : str; "cancelling top" : str;
     "best cancelling" : str; "top premium" : str] /\
  precedes (analyze_one "cancelling top") (analyze_one "best cancelling") selection /\
  precedes (analyze_one "best cancelling") (analyze_one "top premium") selection /\
  kw_seo_score (analyze_one "cancelling top") ==
    kw_seo_score (analyze_one "best cancelling") /\
  kw_seo_score (analyze_one "best cancelling") ==
    kw_seo_score (analyze_one "top premium") /\
  added_before "best cancelling" "cancelling top" added = true /\
  added_before "top premium" "best cancelling" added = true.
Proof.
  intros added selection.
  assert (S : selection =
              map analyze_one
                  ["best premium noise" : str; "cancelling top" : str;
                   "best cancelling" : str; "top premium" : str])
    by (vm_compute; reflexivity).
  split; [vm_compute; reflexivity|].
  split; [rewrite S; vm_compute; reflexivity|].
  split.
  { rewrite S. exists [analyze_one "best premium noise"], [],
      [analyze_one "top premium"]. reflexivity. }
  split.
  { rewrite S. exists [analyze_one "best premium noise";
                       analyze_one "cancelling top"], [], []. reflexivity. }
  repeat split; vm_compute; reflexivity.
Qed.

(** ** Slugs *)

(** C4 (code as it is). The slug is cut to sixty characters after the
    hyphens at its ends were removed: for fifty-nine letters, a space and
    a letter, the cut falls behind the hyphen that stands for the space. *)
Theorem long_title_slug_ends_with_hyphen :
  _generate_slug Examples.long_title = repeat "a"%char 59 ++ "-" /\
  length (_generate_slug Examples.long_title) = 60%nat /\
  endswith "-" (_generate_slug Examples.long_title) = true.
Proof. repeat split; vm_compute; reflexivity. Qed.

(** ** The SEO score *)

(** C5 (counterexample). On the empty keyword list the score is not a
    number; and with word count, heading and call to action held fixed,
    two keywords found out of ten score less than one found out of one. *)
Lemma seo_score_needs_a_fixed_list :
  _calculate_blog_seo_score Examples.short_post [] = Raise ZeroDivisionError /\
  (keywords_found Examples.short_post Examples.one_keyword <
   keywords_found Examples.short_post Examples.ten_keywords)%Z /\
  _calculate_blog_seo_score Examples.short_post Examples.one_keyword = Return 80%Z /\
  _calculate_blog_seo_score Examples.short_post Examples.ten_keywords = Return 48%Z.
Proof. repeat split; vm_compute; reflexivity. Qed.

(** C5 (amended). For keyword lists of one and the same non-zero length,
    the score is an integer between 0 and 100, and it does not decrease
    when more keywords are found while word count, heading and call to
    action stay what they are. *)
Theorem seo_score_monotone (c1 c2 : str) (k1 k2 : list str) :
  k1 <> [] ->
  length k1 = length k2 ->
  len (split c1) = len (split c2) ->
  startswith "#" c1 = startswith "#" c2 ->
  has_cta (lower c1) = has_cta (lower c2) ->
  (keywords_found c1 k1 <= keywords_found c2 k2)%Z ->
  exists s1 s2 : Z,
    _calculate_blog_seo_score c1 k1 = Return s1 /\
    _calculate_blog_seo_score c2 k2 = Return s2 /\
    (0 <= s1)%Z /\ (s1 <= s2)%Z /\ (s2 <= 100)%Z.
Proof.
  intros N L W H C F.
  destruct k1 as [|a1 r1]; [congruence|].
  destruct k2 as [|a2 r2]; [discriminate|].
  injection L as L.
  rewrite !PostScoreFacts.seo_score_nonempty.
  unfold heading_bonus, cta_bonus. rewrite <- W, <- H, <- C, <- L.
  fold (heading_bonus c1). fold (cta_bonus (lower c1)).
  do 2 eexists. split; [reflexivity|]. split; [reflexivity|].
  pose proof (PostScoreFacts.count_if_nonneg
                (fun kw => contains (lower kw) (lower c1)) (a1 :: r1)) as F0.
  fold (keywords_found c1 (a1 :: r1)) in F0.
  destruct (PostScoreFacts.fraction_monotone _ _ (Pos.of_succ_nat (length r1))
              (conj F0 F)) as [Q0 Q1].
  destruct (PostScoreFacts.weighted_sum_monotone _ _ _ _ _ Q0 Q1
              (PostScoreFacts.length_bonus_nonneg (len (split c1)))
              (PostScoreFacts.heading_bonus_nonneg c1)
              (PostScoreFacts.cta_bonus_nonneg (lower c1))) as [S0 S1].
  destruct (PostScoreFacts.int_monotone _ _ S0 S1) as [I0 I1].
  lia.
Qed.

Lemma seo_score_monotone_witness :
  exists s1 s2 : Z,
    _calculate_blog_seo_score Examples.short_post Examples.two_keywords = Return s1 /\
    _calculate_blog_seo_score Examples.short_post Examples.two_found = Return s2 /\
    (0 <= s1)%Z /\ (s1 <= s2)%Z /\ (s2 <= 100)%Z.
Proof.
  apply (seo_score_monotone Examples.short_post Examples.short_post
           Examples.two_keywords Examples.two_found).
  - discriminate.
  - reflexivity.
  - reflexivity.
  - reflexivity.
  - reflexivity.
  - vm_compute. discriminate.
Defined.

(** C9. The keyword coverage divides by the length of the keyword list:
    on the empty list the score raises a division by zero whatever the
    content, on any other list it returns. *)
Theorem seo_score_needs_keywords (content : str) (keywords : list str) :
  match keywords with
  | [] => _calculate_blog_seo_score content keywords = Raise ZeroDivisionError
  | _ :: _ => exists score, _calculate_blog_seo_score content keywords = Return score
  end.
Proof.
  destruct keywords as [|k r].
  - apply PostScoreFacts.seo_score_empty.
  - rewrite PostScoreFacts.seo_score_nonempty. eauto.
Qed.

(** ** Readability *)

(** C6. The readability score never raises. It is computed in binary64:
    the result is the binary64 number nearest to a tenth between 0 and
    100, within [10^-14] of it, and lies between 0 and 100. It is 50 when
    the content has no terminal punctuation or no word; otherwise it is
    the reading ease of the specification, evaluated in binary64 on the
    numbers of tokens, of terminal marks and of estimated syllables,
    clamped to [0, 100] and rounded to one decimal. *)
Theorem readability_in_range (content : str) :
  exists r : float,
    _calculate_readability content = Return r /\
    (exists tenths : Z,
        (0 <= tenths <= 1000)%Z /\
        r = (Binary64.of_Z tenths / Binary64.of_Z 10)%float /\
        (Qabs (Binary64.to_Q r - (tenths # 10)) <= 1 # 100000000000000)%Q) /\
    (0 <= Binary64.to_Q r)%Q /\ (Binary64.to_Q r <= 100)%Q /\
    (if no_terminal_punctuation content || no_words content
     then r = 50%float
     else r = Binary64.round
                (clamp 0 100
                   (flesch_reading_ease (word_count content)
                      (sentence_count content) (syllable_count content))) 1).
Proof.
  destruct (ReadabilityFacts.readability_value content)
    as (r & E & (t & Ht & Er) & V).
  destruct (NumFacts.tenth_range t Ht) as (R0 & R100 & Rt).
  rewrite <- Er in R0, R100, Rt.
  exists r. split; [exact E|]. split; [exists t; auto|]. auto.
Qed.

(** ** The renderer *)

(** C7 (counterexample). An asterisk in the description and a hash sign
    in the title of a product come out of the renderer as they went in. *)
Lemma raw_markers_survive :
  match AIContentGenerator.generate_blog_content
          (CPython.str_hash 0 0) Examples.starred Examples.four_keywords with
  | Return content => contains "*" (_markdown_to_html content)
  | Raise _ => false
  end = true /\
  match AIContentGenerator.generate_blog_content
          (CPython.str_hash 0 0) Examples.sharp Examples.four_keywords with
  | Return content => contains "#" (_markdown_to_html content)
  | Raise _ => false
  end = true.
Proof. split; vm_compute; reflexivity. Qed.

(** C7 (amended). When the fields of the product and the keywords hold no
    hash sign, asterisk, opening angle bracket or line feed, the post is
    rendered as the headline without its marker in a level-1 heading that
    no paragraph wraps, followed by introduction, body and call to action
    in a paragraph each; no hash sign and no asterisk is left. *)
Theorem plain_posts_render_cleanly (hash : str -> Z) (product : Product)
        (keywords : list str) :
  plain_product product = true ->
  forallb plain keywords = true ->
  (4 <= length keywords)%nat ->
  exists headline intro body cta : str,
    AIContentGenerator.generate_blog_content hash product keywords =
      Return (headline ++ [LF; LF] ++ intro ++ [LF; LF] ++ body ++ [LF; LF] ++ cta) /\
    AIContentGenerator._generate_headline hash (p_title product) (nth 0 keywords []) =
      Return headline /\
    AIContentGenerator._generate_intro hash product keywords = Return intro /\
    AIContentGenerator._generate_body product keywords = Return body /\
    AIContentGenerator._generate_cta hash (p_title product) (nth 0 keywords []) =
      Return cta /\
    _markdown_to_html
      (headline ++ [LF; LF] ++ intro ++ [LF; LF] ++ body ++ [LF; LF] ++ cta) =
      "<h1>" ++ skipn 2 headline ++ "</h1><p>" ++ intro ++ "</p><p>" ++ body ++
      "</p><p>" ++ cta ++ "</p>" /\
    absent "#" ("<h1>" ++ skipn 2 headline ++ "</h1><p>" ++ intro ++ "</p><p>" ++
                body ++ "</p><p>" ++ cta ++ "</p>") = true /\
    absent "*" ("<h1>" ++ skipn 2 headline ++ "</h1><p>" ++ intro ++ "</p><p>" ++
                body ++ "</p><p>" ++ cta ++ "</p>") = true.
Proof.
  intros Hp Hk Hl.
  destruct keywords as [|k0 [|k1 [|k2 [|k3 more]]]]; cbn in Hl; try lia.
  cbn [forallb] in Hk. rewrite !andb_true_iff in Hk.
  destruct Hk as (P0 & P1 & P2 & P3 & _).
  destruct (RenderFacts.plain_post_renders hash product k0 k1 k2 k3 more
              Hp P0 P1 P2 P3)
    as (headline & intro & body & cta & E1 & E2 & E3 & E4 & E5 & E6 & E7 & E8).
  exists headline, intro, body, cta. cbn [nth]. repeat split; assumption.
Qed.

Lemma plain_posts_render_cleanly_witness :
  plain_product PROD001 = true /\
  forallb plain Examples.four_keywords = true /\
  exists headline intro body cta : str,
    AIContentGenerator.generate_blog_content (CPython.str_hash 0 0) PROD001
      Examples.four_keywords =
      Return (headline ++ [LF; LF] ++ intro ++ [LF; LF] ++ body ++ [LF; LF] ++ cta) /\
    _markdown_to_html
      (headline ++ [LF; LF] ++ intro ++ [LF; LF] ++ body ++ [LF; LF] ++ cta) =
      "<h1>" ++ skipn 2 headline ++ "</h1><p>" ++ intro ++ "</p><p>" ++ body ++
      "</p><p>" ++ cta ++ "</p>".
Proof.
  split; [reflexivity|]. split; [reflexivity|].
  destruct (plain_posts_render_cleanly (CPython.str_hash 0 0) PROD001
              Examples.four_keywords eq_refl eq_refl)
    as (headline & intro & body & cta & E1 & _ & _ & _ & _ & E6 & _).
  - cbn. lia.
  - exists headline, intro, body, cta. split; assumption.
Defined.

(** ** The report *)

(** C8 (code as it is). The summary guards its division with
    [max(blogs_generated, 1)]; the two averages of the quality metrics
    divide by [len(blog_posts)] without a guard, and the report of a
    pipeline without posts raises a division by zero. *)
Theorem report_without_posts_divides_by_zero :
  floordiv (total_words (performance_metrics init))
           (Z.max (blogs_generated (performance_metrics init)) 1) = Return 0%Z /\
  generate_comprehensive_report init = Raise ZeroDivisionError.
Proof. split; reflexivity. Qed.

(** ** Keyword scores *)

(** C10. For every keyword the volume lies in [50, 95], the difficulty in
    [40, 70] and the relevance is 70 or 90, all below the cap of 100; the
    combined score is the weighted sum itself and lies in [50, 83]; the
    binary64 evaluation yields the same number. *)
Theorem keyword_scores_bounded (keyword : str) (word_count : Z) :
  (50 <= _estimate_search_volume keyword <= 95)%Z /\
  (40 <= _estimate_difficulty keyword <= 70)%Z /\
  (_calculate_relevance keyword word_count = 70%Z \/
   _calculate_relevance keyword word_count = 90%Z) /\
  (kw_seo_score (analyze_one keyword) ==
   combined (_estimate_search_volume keyword) (_estimate_difficulty keyword)
            (_calculate_relevance keyword (len (split keyword))))%Q /\
  (50 <= kw_seo_score (analyze_one keyword))%Q /\
  (kw_seo_score (analyze_one keyword) <= 83)%Q /\
  (Binary64.to_Q
     (Binary64.round
        (Binary64.seo_score (_estimate_search_volume keyword)
                            (_estimate_difficulty keyword)
                            (_calculate_relevance keyword (len (split keyword)))) 2) ==
   kw_seo_score (analyze_one keyword))%Q.
Proof.
  split; [apply ScoringFacts.search_volume_range|].
  split; [apply ScoringFacts.difficulty_range|].
  split; [apply ScoringFacts.relevance_values|].
  destruct (ScoringFacts.seo_score_of_keyword keyword) as (E & L & U).
  repeat split; try assumption.
  apply ScoringFacts.binary64_score_agrees.
Qed.
